(** * run_smolagents.py: the entry script and its one guarded library call

    The repository's only program is
    [mcp_server/src/agents/run_smolagents.py]:

<<
    from smolagents import CodeAgent

    try:
        agent = CodeAgent(tools=[])
        result = agent.run("What is the 15th prime number?")
        print(result)
    except Exception as e:
        print(f"Error running CodeAgent: {e}")
>>

    The script is embedded as a computation in a small state and exception
    monad.  The state records the steps of the script (the import, the
    library calls, the entry of the handler, the completed prints) and every
    chunk handed to the [write] method of standard output, with whether it
    was accepted.  Two things are parameters: the external library, and the
    standard output stream.  Every operation the script reaches either
    returns or raises: the import, the two library calls, [str()] of the
    result, [format()] of the exception, and each [write] of the stream,
    whose answer may depend on what was written before.  The names [print]
    and [Exception] denote the built-ins, and [sys.stdout] is an object with
    a [write] method: looking the method up does not fail, calling it may.
    What the library itself writes is not the script's output.  The exit status is the one of
    CPython 3.11 on a POSIX system with a 64-bit [long]. *)

From Stdlib Require Import String List ZArith Bool Lia.
Import ListNotations.
Local Open Scope string_scope.
Local Open Scope list_scope.

(** ** Python exceptions *)

(** The argument of [SystemExit], which the interpreter turns into the
    exit status when the exception leaves the program: [sys.exit()],
    [sys.exit(n)], [sys.exit(obj)]. *)
Inductive exit_arg : Type :=
| CodeNone
| CodeInt (n : Z)
| CodeObject.

(** Where an exception's class sits in the built-in hierarchy.
    [BaseException] has four direct built-in children: [Exception] (every
    ordinary error derives from it), [SystemExit], [KeyboardInterrupt] and
    [GeneratorExit]; a library may also derive a class from [BaseException]
    directly. *)
Inductive exn_kind : Type :=
| OfException (cls : string)
| SystemExit (code : exit_arg)
| KeyboardInterrupt
| GeneratorExit
| OfBaseException (cls : string).

(** What a call does: it returns or it raises. *)
Inductive completion (E A : Type) : Type :=
| Returns (a : A)
| Raises (e : E).
Arguments Returns {E A} a.
Arguments Raises {E A} e.

(** An exception object: its class; what [str()] does on it (the class's
    [__str__] may itself raise); and, when the class defines a
    [__format__] of its own, what [format(e, "")] does on it. *)
#[warnings="-register-all"] Inductive exn : Type :=
| Exn (kind : exn_kind) (descr : completion exn string)
      (own_format : option (completion exn string)).

Definition outcome (A : Type) : Type := completion exn A.

Definition returned {A : Type} (o : outcome A) : bool :=
  match o with Returns _ => true | Raises _ => false end.

Definition exn_kind_of (e : exn) : exn_kind :=
  match e with Exn k _ _ => k end.

(** [str(e)] *)
Definition str_exn (e : exn) : outcome string :=
  match e with Exn _ d _ => d end.

(** [format(e, "")]: the class's own [__format__] when it has one, else
    [object.__format__], which for the empty format specification is
    [str(e)]. *)
Definition format_exn (e : exn) : outcome string :=
  match e with
  | Exn _ _ (Some f) => f
  | Exn _ d None => d
  end.

(** Whether the class of [e] leaves [__format__] to [object]. *)
Definition default_format (e : exn) : bool :=
  match e with
  | Exn _ _ None => true
  | Exn _ _ (Some _) => false
  end.

(** [isinstance(e, Exception)]: the test of [except Exception]. *)
Definition is_Exception (e : exn) : bool :=
  match exn_kind_of e with
  | OfException _ => true
  | _ => false
  end.

(** ** Call arguments *)

(** The argument expressions of the script: string and list literals. *)
#[warnings="-register-all"] Inductive pyarg : Type :=
| ArgStr (s : string)
| ArgList (items : list pyarg).

Record call_args : Type := mk_args {
  positional : list pyarg;
  keywords : list (string * pyarg)
}.

(** ** The external library *)

(** The objects the library hands out: agents, the values [run] returns,
    and what [str()] does on such a value. *)
Class ObjectModel : Type := {
  Agent : Type;
  Value : Type;
  str_value : Value -> outcome string
}.

(** One behaviour of the library: what the import does, what calling the
    class [CodeAgent] does, what looking up and calling [run] on an agent
    does. *)
Record Library `{ObjectModel} : Type := mk_library {
  import_CodeAgent : outcome unit;
  CodeAgent : call_args -> outcome Agent;
  run : Agent -> call_args -> outcome Value
}.
Arguments mk_library {_} _ _ _.

(** ** Standard output *)

(** One behaviour of [sys.stdout]: what its [write] method does with a
    chunk of text, given the chunks handed to it before (it may raise
    [UnicodeEncodeError] for a text it cannot encode, [ValueError] when it
    is closed, [OSError] when the device refuses); and whether the flush
    the interpreter performs when it exits, after these chunks, succeeds. *)
Record Stream : Type := mk_stream {
  write : list string -> string -> outcome unit;
  flush_at_exit : list string -> bool
}.

(** The line end [print] writes after its text. *)
Definition newline : string := String (Ascii.ascii_of_nat 10) EmptyString.

(** ** What an execution does, step by step *)

Inductive event `{ObjectModel} : Type :=
| ImportFrom (module name : string)
| Construct (args : call_args)
| Run (a : Agent) (args : call_args)
| Caught (e : exn)
| Print (text : string).

(** The steps taken so far, and the chunks handed to [sys.stdout.write] so
    far, each with whether the stream accepted it. *)
Record state `{ObjectModel} : Type := mk_state {
  steps : list event;
  written : list (string * bool)
}.
Arguments mk_state {_} _ _.

(** ** The monad: state and a completion *)

Definition M `{ObjectModel} (A : Type) : Type := state -> state * outcome A.

Section Monad.
Context `{ObjectModel}.

Definition ret {A} (a : A) : M A := fun s => (s, Returns a).

Definition bind {A B} (m : M A) (k : A -> M B) : M B :=
  fun s =>
    match m s with
    | (s', Returns a) => k a s'
    | (s', Raises e) => (s', Raises e)
    end.

Definition log (ev : event) : M unit :=
  fun s => (mk_state (steps s ++ [ev]) (written s), Returns tt).

Definition lift {A} (o : outcome A) : M A := fun s => (s, o).

(** [try: body / except Exception as e: handler]: an exception of the body
    that is an instance of [Exception] enters the handler, any other one
    goes on; what the body did before it raised stays done. *)
Definition try_except_Exception {A} (body : M A) (handler : exn -> M A) : M A :=
  fun s =>
    match body s with
    | (s', Returns a) => (s', Returns a)
    | (s', Raises e) =>
        if is_Exception e
        then bind (log (Caught e)) (fun _ => handler e) s'
        else (s', Raises e)
    end.
End Monad.

Declare Scope py_scope.
Delimit Scope py_scope with py.
Notation "x <- m ;; k" := (bind m (fun x => k))
  (at level 100, m at next level, right associativity) : py_scope.
Notation "m ;; k" := (bind m (fun _ => k))
  (at level 100, right associativity) : py_scope.
Local Open Scope py_scope.

(** ** The statements of the script *)

Section Script.
Context `{ObjectModel}.
Variable out : Stream.
Variable lib : Library.

(** [from smolagents import CodeAgent] *)
Definition import_from (module name : string) : M unit :=
  log (ImportFrom module name) ;; lift (import_CodeAgent lib).

(** [CodeAgent(...)]: calling the imported class. *)
Definition call_CodeAgent (args : call_args) : M Agent :=
  log (Construct args) ;; lift (CodeAgent lib args).

(** [agent.run(...)]: the attribute lookup and the call; a failing lookup
    raises like a failing call. *)
Definition call_run (agent : Agent) (args : call_args) : M Value :=
  log (Run agent args) ;; lift (run lib agent args).

(** [sys.stdout.write(chunk)]: the stream answers, knowing the chunks it
    was handed before; the chunk is recorded with the answer. *)
Definition write_stdout (chunk : string) : M unit :=
  fun s =>
    let o := write out (map fst (written s)) chunk in
    (mk_state (steps s) (written s ++ [(chunk, returned o)]), o).

(** [print(s)] for a [str] object [s]: the text is written, then the line
    end; the print is complete when both writes returned. *)
Definition print_text (s : string) : M unit :=
  write_stdout s ;; write_stdout newline ;; log (Print s).

(** [print(result)]: [str(result)] is taken first, and nothing is written
    when that raises. *)
Definition print (v : Value) : M unit :=
  s <- lift (str_value v) ;; print_text s.

(** Lines 4 to 10: the suite of the [try]. *)
Definition try_suite : M unit :=
  agent <- call_CodeAgent (mk_args [] [("tools", ArgList [])]) ;;
  result <- call_run agent (mk_args [ArgStr "What is the 15th prime number?"] []) ;;
  print result.

(** Lines 11 and 12: the suite of [except Exception as e].  The
    replacement field [{e}] of the f-string is [format(e, "")]. *)
Definition except_suite (e : exn) : M unit :=
  s <- lift (format_exn e) ;;
  print_text ("Error running CodeAgent: " ++ s)%string.

(** The module body of run_smolagents.py. *)
Definition run_smolagents : M unit :=
  import_from "smolagents" "CodeAgent" ;;
  try_except_Exception try_suite except_suite.

End Script.

(** ** The process around the script *)

Inductive termination : Type :=
| Completed
| Uncaught (e : exn).

Section Process.
Context `{ObjectModel}.

Definition initial : state := mk_state [] [].

(** One execution: the module body run from the start, on one stream and
    one library. *)
Definition execution (out : Stream) (lib : Library) : state * outcome unit :=
  run_smolagents out lib initial.

Definition trace (out : Stream) (lib : Library) : list event :=
  steps (fst (execution out lib)).

(** How the interpreter leaves the module body: by its end, or by an
    exception nothing caught. *)
Definition termination_of (out : Stream) (lib : Library) : termination :=
  match snd (execution out lib) with
  | Returns _ => Completed
  | Raises e => Uncaught e
  end.

(** The texts of the print calls that completed, in order. *)
Fixpoint printed (t : list event) : list string :=
  match t with
  | [] => []
  | Print s :: t' => s :: printed t'
  | _ :: t' => printed t'
  end.

Definition printed_output (out : Stream) (lib : Library) : list string :=
  printed (trace out lib).

(** The chunks handed to [sys.stdout.write], accepted or not, in order. *)
Definition chunks_handed (out : Stream) (lib : Library) : list string :=
  map fst (written (fst (execution out lib))).

(** The record of a history of writes whose last one the stream refused:
    every chunk marked accepted, except the last. *)
Fixpoint refused_last (h : list string) : list (string * bool) :=
  match h with
  | [] => []
  | [x] => [(x, false)]
  | x :: h' => (x, true) :: refused_last h'
  end.

(** The chunks the stream accepted. *)
Definition accepted (w : list (string * bool)) : list string :=
  map fst (filter snd w).

(** The characters the script puts on standard output: those of the chunks
    the stream accepted. *)
Definition standard_output (out : Stream) (lib : Library) : string :=
  fold_right String.append "" (accepted (written (fst (execution out lib)))).

End Process.

(** Whether [n] fits a 64-bit C [long]. *)
Definition fits_long (n : Z) : bool :=
  ((- 2 ^ 63 <=? n) && (n <? 2 ^ 63))%Z.

(** The status the way the module body ended asks for: 0 at its end; for an
    uncaught [SystemExit], what its argument says (none: 0; an integer that
    fits a C [long]: its low eight bits; a larger one: 255; another object:
    1, after printing it on standard error); 1 for any other uncaught
    exception, after the traceback on standard error. *)
Definition status_asked (t : termination) : Z :=
  match t with
  | Completed => 0
  | Uncaught e =>
      match exn_kind_of e with
      | SystemExit CodeNone => 0
      | SystemExit (CodeInt n) => if fits_long n then n mod 256 else 255
      | SystemExit CodeObject => 1
      | _ => 1
      end
  end%Z.

Definition interrupted (t : termination) : bool :=
  match t with
  | Uncaught e =>
      match exn_kind_of e with
      | KeyboardInterrupt => true
      | _ => false
      end
  | Completed => false
  end.

(** The exit status of the process, as the shell reports it.  An uncaught
    [KeyboardInterrupt] ends the process by the interrupt signal: 130.
    Otherwise the interpreter flushes the standard streams as it exits:
    120 when that flush fails, else the status asked for. *)
Definition exit_status (flushed : bool) (t : termination) : Z :=
  if interrupted t then 130%Z
  else if flushed then status_asked t
  else 120%Z.

Definition exit_status_of `{ObjectModel} (out : Stream) (lib : Library) : Z :=
  exit_status (flush_at_exit out (chunks_handed out lib)) (termination_of out lib).

(** ** The behaviour of the library and of the stream where the script
       meets them *)

Section Behaviour.
Context `{ObjectModel}.

(** What the library does at the construction the script performs. *)
Definition construction (lib : Library) : outcome Agent :=
  CodeAgent lib {| positional := []; keywords := [("tools", ArgList [])] |}.

(** What the library does at the run invocation the script performs. *)
Definition invocation (lib : Library) (a : Agent) : outcome Value :=
  run lib a {| positional := [ArgStr "What is the 15th prime number?"];
               keywords := [] |}.

(** The line the handler prints for a failure formatted as [t]. *)
Definition error_line (t : string) : string :=
  ("Error running CodeAgent: " ++ t)%string.

(** The failures that can come up inside the [try], each with the chunks
    handed to the stream by then: from the construction, from the run
    invocation on the constructed agent, and from [print(result)], where
    [str(result)], the write of the text and the write of the line end can
    each raise. *)
Inductive raised_in_try (out : Stream) (lib : Library) : exn -> list string -> Prop :=
| raised_by_construction e :
    construction lib = Raises e -> raised_in_try out lib e []
| raised_by_run a e :
    construction lib = Returns a -> invocation lib a = Raises e ->
    raised_in_try out lib e []
| raised_by_str a v e :
    construction lib = Returns a -> invocation lib a = Returns v ->
    str_value v = Raises e -> raised_in_try out lib e []
| raised_by_write a v t e :
    construction lib = Returns a -> invocation lib a = Returns v ->
    str_value v = Returns t ->
    write out [] t = Raises e -> raised_in_try out lib e [t]
| raised_by_line_end a v t e :
    construction lib = Returns a -> invocation lib a = Returns v ->
    str_value v = Returns t ->
    write out [] t = Returns tt -> write out [t] newline = Raises e ->
    raised_in_try out lib e [t; newline].

(** A failure the handler reports, [h] being the chunks handed to the
    stream before: an instance of [Exception] for which [format(e, "")]
    returns and the stream accepts the error line and its line end. *)
Definition reportable (out : Stream) (e : exn) (h : list string) : bool :=
  is_Exception e &&
  match format_exn e with
  | Returns t =>
      returned (write out h (error_line t)) &&
      returned (write out (h ++ [error_line t]) newline)
  | Raises _ => false
  end.

(** How the handler itself fails with [e'] on the failure [e] it caught:
    [format(e, "")] raises, or the write of the error line does, or the
    write of its line end. *)
Inductive handler_raises (out : Stream) (e : exn) (h : list string) (e' : exn) : Prop :=
| format_raises :
    format_exn e = Raises e' -> handler_raises out e h e'
| line_write_raises t :
    format_exn e = Returns t ->
    write out h (error_line t) = Raises e' -> handler_raises out e h e'
| line_end_write_raises t :
    format_exn e = Returns t ->
    write out h (error_line t) = Returns tt ->
    write out (h ++ [error_line t]) newline = Raises e' ->
    handler_raises out e h e'.

End Behaviour.

(** ** The calls into the library *)

Section Calls.
Context `{ObjectModel}.

Definition is_construct (ev : event) : bool :=
  match ev with Construct _ => true | _ => false end.

Definition is_run (ev : event) : bool :=
  match ev with Run _ _ => true | _ => false end.

Definition is_call (ev : event) : bool := is_construct ev || is_run ev.

(** The calls into the library among the steps of a trace, in order. *)
Definition library_calls (t : list event) : list event := filter is_call t.

(** Where an execution stands. *)
Inductive phase : Type :=
| Start
| Imported
| Constructed
| Invoked
| Handling
| Finished.

(** The steps that may come next: the import, then the construction, then
    the run invocation, then the print of the result; from the construction
    or the run invocation the handler may be entered instead, and then only
    its print remains. *)
Definition advance (p : phase) (ev : event) : option phase :=
  match p, ev with
  | Start, ImportFrom _ _ => Some Imported
  | Imported, Construct _ => Some Constructed
  | Constructed, Run _ _ => Some Invoked
  | Constructed, Caught _ => Some Handling
  | Invoked, Caught _ => Some Handling
  | Invoked, Print _ => Some Finished
  | Handling, Print _ => Some Finished
  | _, _ => None
  end.

(** The phase a trace leads to, when each of its steps may come next. *)
Fixpoint reach (p : phase) (t : list event) : option phase :=
  match t with
  | [] => Some p
  | ev :: t' =>
      match advance p ev with
      | Some q => reach q t'
      | None => None
      end
  end.

Definition in_order (t : list event) : bool :=
  match reach Start t with Some _ => true | None => false end.

(** From the run invocation on, no further call can come. *)
Definition past_the_calls (p : phase) : bool :=
  match p with
  | Invoked | Handling | Finished => true
  | _ => false
  end.

End Calls.

(** ** Stand-ins for the library and for the stream *)

(** Values of a stand-in library: an answer whose [str()] is its text, or
    an object whose [__str__] raises. *)
Inductive stub_value : Type :=
| Answer (text : string)
| Unprintable (e : exn).

#[export] Instance stub_objects : ObjectModel := {|
  Agent := nat;
  Value := stub_value;
  str_value := fun v =>
    match v with
    | Answer s => Returns s
    | Unprintable e => Raises e
    end
|}.

Definition value_error : exn :=
  Exn (OfException "ValueError") (Returns "no model configured") None.

Definition keyboard_interrupt : exn := Exn KeyboardInterrupt (Returns "") None.

Definition system_exit_3 : exn := Exn (SystemExit (CodeInt 3)) (Returns "3") None.

Definition module_not_found : exn :=
  Exn (OfException "ModuleNotFoundError") (Returns "No module named 'smolagents'") None.

Definition attribute_error : exn :=
  Exn (OfException "AttributeError")
      (Returns "'AgentError' object has no attribute 'message'") None.

(** An [Exception] whose [__str__] looks up an attribute that is not there. *)
Definition undescribable : exn :=
  Exn (OfException "AgentError") (Raises attribute_error) None.

(** An [Exception] whose class defines [__str__], returning ["S"], and
    [__format__], returning ["F"]. *)
Definition formatted_error : exn :=
  Exn (OfException "AgentError") (Returns "S") (Some (Returns "F")).

(** An [Exception] whose [__str__] raises and whose [__format__] returns. *)
Definition formatted_undescribable : exn :=
  Exn (OfException "AgentError") (Raises attribute_error) (Some (Returns "F")).

(** An [Exception] whose class defines a [__format__] that raises. *)
Definition unformattable : exn :=
  Exn (OfException "AgentError") (Returns "S") (Some (Raises attribute_error)).

(** What an ASCII stream raises on the text ["caf\xe9"]. *)
Definition cannot_encode : exn :=
  Exn (OfException "UnicodeEncodeError")
      (Returns "'ascii' codec can't encode character '\xe9' in position 3: ordinal not in range(128)")
      None.

Definition closed_file : exn :=
  Exn (OfException "ValueError") (Returns "I/O operation on closed file.") None.

(** The text "cafe" with an acute accent on its last letter (code 233). *)
Definition cafe : string :=
  ("caf" ++ String (Ascii.ascii_of_nat 233) EmptyString)%string.

(** A [ValueError] whose message has a character outside ASCII. *)
Definition cafe_error : exn := Exn (OfException "ValueError") (Returns cafe) None.

Fixpoint has_non_ascii (s : string) : bool :=
  match s with
  | EmptyString => false
  | String c s' => (128 <=? Ascii.nat_of_ascii c)%nat || has_non_ascii s'
  end.

(** A stream that takes everything. *)
Definition accepting : Stream :=
  mk_stream (fun _ _ => Returns tt) (fun _ => true).

(** A stream whose encoding is ASCII. *)
Definition ascii_stream : Stream :=
  mk_stream (fun _ chunk => if has_non_ascii chunk then Raises cannot_encode
                            else Returns tt)
            (fun _ => true).

(** A closed stream. *)
Definition closed_stream : Stream :=
  mk_stream (fun _ _ => Raises closed_file) (fun _ => true).

Definition io_error : exn :=
  Exn (OfException "OSError") (Returns "[Errno 5] Input/output error") None.

(** A stream that refuses the second chunk it is handed and takes every
    other one. *)
Definition hiccup : Stream :=
  mk_stream (fun h _ => match h with [_] => Raises io_error | _ => Returns tt end)
            (fun _ => true).

(** A buffered stream on a full device: every write is taken into the
    buffer, and the flush at exit fails when there is something to flush. *)
Definition full_device : Stream :=
  mk_stream (fun _ _ => Returns tt)
            (fun h => match h with [] => true | _ => false end).

(** Everything returns: the agent answers 47. *)
Definition answering : Library :=
  mk_library (Returns tt) (fun _ => Returns 7) (fun _ _ => Returns (Answer "47")).

(** The agent's answer has a character outside ASCII. *)
Definition answering_cafe : Library :=
  mk_library (Returns tt) (fun _ => Returns 7) (fun _ _ => Returns (Answer cafe)).

(** The construction raises a [ValueError]. *)
Definition failing_construction : Library :=
  mk_library (Returns tt) (fun _ => Raises value_error) (fun _ _ => Returns (Answer "47")).

(** The run invocation raises a [ValueError]. *)
Definition failing_run : Library :=
  mk_library (Returns tt) (fun _ => Returns 7) (fun _ _ => Raises value_error).

(** The run invocation raises an [Exception] with a [__format__] of its own. *)
Definition failing_formatted : Library :=
  mk_library (Returns tt) (fun _ => Returns 7) (fun _ _ => Raises formatted_error).

(** The run invocation raises an [Exception] whose [__format__] raises. *)
Definition failing_unformattable : Library :=
  mk_library (Returns tt) (fun _ => Returns 7) (fun _ _ => Raises unformattable).

(** The run invocation raises a [ValueError] whose message has a character
    outside ASCII. *)
Definition failing_cafe : Library :=
  mk_library (Returns tt) (fun _ => Returns 7) (fun _ _ => Raises cafe_error).

(** The run invocation returns an object whose [__str__] raises a
    [ValueError]. *)
Definition answering_unprintably : Library :=
  mk_library (Returns tt) (fun _ => Returns 7)
    (fun _ _ => Returns (Unprintable value_error)).

(** The construction is interrupted from the keyboard. *)
Definition interrupted_construction : Library :=
  mk_library (Returns tt) (fun _ => Raises keyboard_interrupt) (fun _ _ => Returns (Answer "47")).

(** The run invocation is interrupted from the keyboard. *)
Definition interrupted_run : Library :=
  mk_library (Returns tt) (fun _ => Returns 7) (fun _ _ => Raises keyboard_interrupt).

(** The construction calls [sys.exit(3)]. *)
Definition exiting_construction : Library :=
  mk_library (Returns tt) (fun _ => Raises system_exit_3) (fun _ _ => Returns (Answer "47")).

(** The construction raises an [Exception] whose [str()] raises. *)
Definition failing_undescribably : Library :=
  mk_library (Returns tt) (fun _ => Raises undescribable) (fun _ _ => Returns (Answer "47")).

(** The library is not installed. *)
Definition not_installed : Library :=
  mk_library (Raises module_not_found) (fun _ => Returns 7) (fun _ _ => Returns (Answer "47")).

(** A stand-in that answers as [answering] does at the script's calls and
    fails everywhere else. *)
Definition answering_narrowly : Library :=
  mk_library (Returns tt)
    (fun args => match positional args with
                 | [] => Returns 7
                 | _ => Raises value_error
                 end)
    (fun a _ => if Nat.eqb a 7 then Returns (Answer "47") else Raises value_error).

(** The agent's answer reads like the line the handler prints for
    [value_error]. *)
Definition answering_like_a_failure : Library :=
  mk_library (Returns tt) (fun _ => Returns 7)
    (fun _ _ => Returns (Answer "Error running CodeAgent: no model configured")).

(** * Proofs *)

Ltac unfold_script :=
  unfold standard_output, printed_output, chunks_handed, termination_of, trace,
    execution, run_smolagents, try_suite, except_suite, import_from,
    call_CodeAgent, call_run, print, print_text, write_stdout,
    try_except_Exception, bind, log, lift, initial, construction, invocation,
    error_line in *.

Ltac split_outcomes :=
  repeat
    (cbn;
     match goal with
     | |- context [import_CodeAgent ?l] =>
         destruct (import_CodeAgent l) as [[]|?] eqn:?
     | |- context [CodeAgent ?l ?args] => destruct (CodeAgent l args) eqn:?
     | |- context [run ?l ?a ?args] => destruct (run l a args) eqn:?
     | |- context [str_value ?v] => destruct (str_value v) eqn:?
     | |- context [is_Exception ?e] => destruct (is_Exception e) eqn:?
     | |- context [format_exn ?e] => destruct (format_exn e) eqn:?
     | |- context [write ?o ?h ?c] => destruct (write o h c) as [[]|?] eqn:?
     end);
  cbn.

Lemma trace_in_order `{ObjectModel} (out : Stream) (lib : Library) :
  in_order (trace out lib) = true.
Proof. unfold in_order. unfold_script. split_outcomes; reflexivity. Qed.

Lemma library_calls_trace `{ObjectModel} (out : Stream) (lib : Library) :
  library_calls (trace out lib) =
    match import_CodeAgent lib with
    | Raises _ => []
    | Returns _ =>
        Construct {| positional := []; keywords := [("tools", ArgList [])] |} ::
        match construction lib with
        | Raises _ => []
        | Returns a =>
            [Run a {| positional := [ArgStr "What is the 15th prime number?"];
                      keywords := [] |}]
        end
    end.
Proof. unfold library_calls. unfold_script. split_outcomes; reflexivity. Qed.

Section Cases.
Context `{ObjectModel}.
Variable out : Stream.
Variable lib : Library.

Lemma map_fst_refused_last (h : list string) : map fst (refused_last h) = h.
Proof.
  induction h as [|x h IH]; [reflexivity|].
  destruct h as [|y h]; [reflexivity|].
  change (x :: map fst (refused_last (y :: h)) = x :: y :: h). rewrite IH. reflexivity.
Qed.

Lemma raised_in_try_unique (e1 e2 : exn) (h1 h2 : list string) :
  raised_in_try out lib e1 h1 -> raised_in_try out lib e2 h2 ->
  e1 = e2 /\ h1 = h2.
Proof.
  intros H1 H2. destruct H1; destruct H2; split; congruence.
Qed.

(** The suite of the [try], run after the import: it prints the result, or
    it raises one of the failures of [raised_in_try] with nothing printed. *)
Lemma try_suite_cases :
  (exists a v t,
     construction lib = Returns a /\ invocation lib a = Returns v /\
     str_value v = Returns t /\
     write out [] t = Returns tt /\ write out [t] newline = Returns tt /\
     try_suite out lib (mk_state [ImportFrom "smolagents" "CodeAgent"] []) =
       (mk_state
          [ImportFrom "smolagents" "CodeAgent";
           Construct {| positional := []; keywords := [("tools", ArgList [])] |};
           Run a {| positional := [ArgStr "What is the 15th prime number?"];
                    keywords := [] |};
           Print t]
          [(t, true); (newline, true)],
        Returns tt)) \/
  (exists e h sp,
     raised_in_try out lib e h /\
     try_suite out lib (mk_state [ImportFrom "smolagents" "CodeAgent"] []) =
       (mk_state sp (refused_last h), Raises e) /\
     ((construction lib = Raises e /\
       sp = [ImportFrom "smolagents" "CodeAgent";
             Construct {| positional := []; keywords := [("tools", ArgList [])] |}]) \/
      (exists a, construction lib = Returns a /\
         sp = [ImportFrom "smolagents" "CodeAgent";
               Construct {| positional := []; keywords := [("tools", ArgList [])] |};
               Run a {| positional := [ArgStr "What is the 15th prime number?"];
                        keywords := [] |}]))).
Proof.
  unfold try_suite, call_CodeAgent, call_run, print, print_text, write_stdout,
    bind, log, lift.
  destruct (construction lib) as [a|e] eqn:Hc; unfold construction in Hc;
    cbn; rewrite Hc; cbn.
  - destruct (invocation lib a) as [v|e] eqn:Hr; unfold invocation in Hr;
      rewrite Hr; cbn.
    + destruct (str_value v) as [t|e] eqn:Hs; cbn.
      * destruct (write out [] t) as [[]|e] eqn:Hw; cbn.
        -- destruct (write out [t] newline) as [[]|e] eqn:Hn; cbn.
           ++ left. exists a, v, t. repeat split; auto.
           ++ right. exists e, [t; newline]. eexists.
              split; [eapply raised_by_line_end; eassumption|].
              split; [reflexivity|]. right. eauto.
        -- right. exists e, [t]. eexists.
           split; [eapply raised_by_write; eassumption|].
           split; [reflexivity|]. right. eauto.
      * right. exists e, []. eexists.
        split; [eapply raised_by_str; eassumption|].
        split; [reflexivity|]. right. eauto.
    + right. exists e, []. eexists.
      split; [eapply raised_by_run; eassumption|].
      split; [reflexivity|]. right. eauto.
  - right. exists e, []. eexists.
    split; [eapply raised_by_construction; eassumption|].
    split; [reflexivity|]. left. auto.
Qed.

(** The handler, entered for [e] after the steps [sp] and the writes [w]:
    it prints the error line, or it raises. *)
Lemma handler_cases (e : exn) (sp : list event) (w : list (string * bool)) :
  (exists t,
     format_exn e = Returns t /\
     write out (map fst w) (error_line t) = Returns tt /\
     write out (map fst w ++ [error_line t]) newline = Returns tt /\
     bind (log (Caught e)) (fun _ => except_suite out e) (mk_state sp w) =
       (mk_state (sp ++ [Caught e; Print (error_line t)])
                 (w ++ [(error_line t, true); (newline, true)]),
        Returns tt)) \/
  (exists e' w',
     handler_raises out e (map fst w) e' /\
     bind (log (Caught e)) (fun _ => except_suite out e) (mk_state sp w) =
       (mk_state (sp ++ [Caught e]) (w ++ w'), Raises e')).
Proof.
  unfold except_suite, print_text, write_stdout, bind, log, lift.
  cbn -[String.append].
  destruct (format_exn e) as [t|e'] eqn:Hf; cbn -[String.append].
  - change ("Error running CodeAgent: " ++ t)%string with (error_line t).
    destruct (write out (map fst w) (error_line t)) as [[]|e'] eqn:Hw;
      cbn -[String.append].
    + rewrite map_app. cbn -[String.append].
      destruct (write out (map fst w ++ [error_line t]) newline) as [[]|e'] eqn:Hn;
        cbn -[String.append].
      * left. exists t. repeat split; auto.
        rewrite <- !app_assoc. reflexivity.
      * right. exists e', [(error_line t, true); (newline, false)].
        split; [eapply line_end_write_raises; eassumption|].
        rewrite <- !app_assoc. reflexivity.
    + right. exists e', [(error_line t, false)].
      split; [eapply line_write_raises; eassumption | reflexivity].
  - right. exists e', []. rewrite app_nil_r.
    split; [apply format_raises; assumption | reflexivity].
Qed.

End Cases.

(** What an execution is, by what the library and the stream do. *)
Lemma execution_cases `{ObjectModel} (out : Stream) (lib : Library) :
  (exists e,
     import_CodeAgent lib = Raises e /\
     execution out lib =
       (mk_state [ImportFrom "smolagents" "CodeAgent"] [], Raises e)) \/
  (exists a v t,
     import_CodeAgent lib = Returns tt /\
     construction lib = Returns a /\ invocation lib a = Returns v /\
     str_value v = Returns t /\
     write out [] t = Returns tt /\ write out [t] newline = Returns tt /\
     execution out lib =
       (mk_state
          [ImportFrom "smolagents" "CodeAgent";
           Construct {| positional := []; keywords := [("tools", ArgList [])] |};
           Run a {| positional := [ArgStr "What is the 15th prime number?"];
                    keywords := [] |};
           Print t]
          [(t, true); (newline, true)],
        Returns tt)) \/
  (exists e h sp,
     import_CodeAgent lib = Returns tt /\ raised_in_try out lib e h /\
     printed sp = [] /\ (forall e', ~ In (Caught e') sp) /\
     ((is_Exception e = false /\
       execution out lib = (mk_state sp (refused_last h), Raises e)) \/
      (is_Exception e = true /\
       exists t,
         format_exn e = Returns t /\
         write out h (error_line t) = Returns tt /\
         write out (h ++ [error_line t]) newline = Returns tt /\
         execution out lib =
           (mk_state (sp ++ [Caught e; Print (error_line t)])
                     (refused_last h ++ [(error_line t, true); (newline, true)]),
            Returns tt)) \/
      (is_Exception e = true /\
       exists e' w',
         handler_raises out e h e' /\
         execution out lib =
           (mk_state (sp ++ [Caught e]) (refused_last h ++ w'), Raises e')))).
Proof.
  unfold execution, run_smolagents, import_from, initial.
  unfold bind at 1. unfold bind at 1. unfold log at 1. unfold lift at 1. cbn.
  destruct (import_CodeAgent lib) as [[]|e0] eqn:Hi.
  - right. unfold try_except_Exception.
    destruct (try_suite_cases out lib)
      as [(a & v & t & Hc & Hr & Hs & Hw & Hn & Ht)
         | (e & h & sp & Hraised & Ht & Hsp)].
    + left. exists a, v, t. rewrite Ht. repeat split; auto.
    + right. exists e, h, sp. rewrite Ht.
      assert (Hprinted : printed sp = [] /\ forall e', ~ In (Caught e') sp).
      { destruct Hsp as [[_ ->] | [a [_ ->]]]; (split; [reflexivity|]);
          intros e' Hin; simpl in Hin;
          repeat (destruct Hin as [Hin|Hin]; [discriminate Hin|]); exact Hin. }
      destruct Hprinted as [Hp Hno].
      repeat (split; [first [assumption | reflexivity]|]).
      destruct (is_Exception e) eqn:He.
      * right.
        destruct (handler_cases out e sp (refused_last h))
          as [(t & Hf & Hw & Hn & Hh) | (e' & w' & Hfail & Hh)];
          rewrite map_fst_refused_last in *; rewrite Hh.
        -- left. split; [reflexivity|]. exists t. auto.
        -- right. split; [reflexivity|]. exists e', w'. auto.
      * left. auto.
  - left. exists e0. auto.
Qed.

Section Order.
Context `{ObjectModel}.

Lemma printed_app (t1 t2 : list event) :
  printed (t1 ++ t2) = printed t1 ++ printed t2.
Proof.
  induction t1 as [|ev t1 IH]; simpl; [reflexivity|].
  destruct ev; simpl; rewrite ?IH; reflexivity.
Qed.


Lemma reach_app (t1 t2 : list event) : forall p,
  reach p (t1 ++ t2) =
    match reach p t1 with
    | Some q => reach q t2
    | None => None
    end.
Proof.
  induction t1 as [|ev t1 IH]; intros p; simpl; [reflexivity|].
  destruct (advance p ev) as [q|]; [apply IH | reflexivity].
Qed.

Lemma reach_split (pre post : list event) (ev : event) (p r : phase) :
  reach p (pre ++ ev :: post) = Some r ->
  exists q q', reach p pre = Some q /\ advance q ev = Some q' /\
               reach q' post = Some r.
Proof.
  rewrite reach_app. destruct (reach p pre) as [q|]; [|discriminate].
  simpl. destruct (advance q ev) as [q'|] eqn:Ha; [|discriminate].
  intros Hr. exists q, q'. auto.
Qed.

Lemma no_call_past_the_calls (post : list event) : forall p r,
  past_the_calls p = true ->
  reach p post = Some r ->
  forall ev, In ev post -> is_call ev = false.
Proof.
  induction post as [|ev0 post IH]; intros p r Hp Hr ev Hin; [destruct Hin|].
  simpl in Hr. destruct (advance p ev0) as [q|] eqn:Ha; [|discriminate].
  assert (Hq : past_the_calls q = true /\ is_call ev0 = false).
  { destruct p, ev0; simpl in Ha; try discriminate; injection Ha as <-; auto. }
  destruct Hq as [Hq Hev0]. destruct Hin as [<-|Hin]; [assumption|].
  exact (IH q r Hq Hr ev Hin).
Qed.

Lemma construction_before_constructed (pre : list event) : forall p,
  reach p pre = Some Constructed ->
  p = Constructed \/ exists c, In (Construct c) pre.
Proof.
  induction pre as [|ev pre IH]; intros p Hr; simpl in Hr.
  - left. congruence.
  - right. destruct (advance p ev) as [q|] eqn:Ha; [|discriminate].
    destruct (IH q Hr) as [-> | [c Hc]].
    + destruct p, ev; simpl in Ha; try discriminate. eexists. left. reflexivity.
    + exists c. right. assumption.
Qed.

Lemma nothing_after_finished (post : list event) (r : phase) :
  reach Finished post = Some r -> post = [].
Proof. destruct post as [|ev post]; [reflexivity | destruct ev; discriminate]. Qed.

Lemma run_event_inv (out : Stream) (lib : Library) (a : Agent) (args : call_args) :
  In (Run a args) (trace out lib) ->
  args = {| positional := [ArgStr "What is the 15th prime number?"];
            keywords := [] |} /\
  construction lib = Returns a.
Proof.
  intros Hin.
  assert (Hc : In (Run a args) (library_calls (trace out lib))).
  { apply filter_In. split; [assumption | reflexivity]. }
  rewrite library_calls_trace in Hc.
  destruct (import_CodeAgent lib); [|destruct Hc].
  destruct Hc as [Hc|Hc]; [discriminate Hc|].
  destruct (construction lib) as [a'|]; [|destruct Hc].
  destruct Hc as [Hc|[]]. injection Hc as -> <-. auto.
Qed.

Lemma construct_event_inv (out : Stream) (lib : Library) (args : call_args) :
  In (Construct args) (trace out lib) ->
  args = {| positional := []; keywords := [("tools", ArgList [])] |} /\
  exists u, import_CodeAgent lib = Returns u.
Proof.
  intros Hin.
  assert (Hc : In (Construct args) (library_calls (trace out lib))).
  { apply filter_In. split; [assumption | reflexivity]. }
  rewrite library_calls_trace in Hc.
  destruct (import_CodeAgent lib) as [u|]; [|destruct Hc].
  destruct Hc as [Hc|Hc].
  - injection Hc as <-. eauto.
  - destruct (construction lib) as [a'|]; [|destruct Hc].
    destruct Hc as [Hc|[]]. discriminate Hc.
Qed.

End Order.

Lemma reach_after_outcome `{ObjectModel} (t : list event) : forall p q,
  p = Handling \/ p = Finished ->
  reach p t = Some q ->
  (q = Handling \/ q = Finished) /\ forall e, ~ In (Caught e) t.
Proof.
  induction t as [|ev t IH]; intros p q Hp Hr; simpl in Hr.
  - injection Hr as <-. split; [assumption | intros e []].
  - destruct (advance p ev) as [p'|] eqn:Ha; [|discriminate].
    assert (Hev : p' = Finished /\ exists s, ev = Print s).
    { destruct Hp as [-> | ->]; destruct ev; simpl in Ha; try discriminate.
      injection Ha as <-. eauto. }
    destruct Hev as [-> [s ->]].
    destruct (IH Finished q (or_intror eq_refl) Hr) as [Hq Hno].
    split; [assumption|]. intros e [Hin|Hin]; [discriminate Hin | exact (Hno e Hin)].
Qed.

Lemma reach_before_outcome `{ObjectModel} (t : list event) : forall p q,
  reach p t = Some q ->
  q = Constructed \/ q = Invoked ->
  printed t = [] /\ forall e, ~ In (Caught e) t.
Proof.
  induction t as [|ev t IH]; intros p q Hr Hq; simpl in Hr.
  - split; [reflexivity | intros e []].
  - destruct (advance p ev) as [p'|] eqn:Ha; [|discriminate].
    destruct (IH p' q Hr Hq) as [Hp Hno].
    assert (Hearly : ~ (p' = Handling \/ p' = Finished)).
    { intros Hlate.
      destruct (reach_after_outcome t p' q Hlate Hr) as [[-> | ->] _];
        destruct Hq; discriminate. }
    assert (Hev : is_call ev = true \/ exists m n, ev = ImportFrom m n).
    { destruct p, ev; simpl in Ha; try discriminate; eauto;
        injection Ha as <-; exfalso; apply Hearly; auto. }
    destruct Hev as [Hcall | [m [n ->]]].
    + destruct ev; simpl in Hcall; try discriminate; simpl;
        (split; [assumption|]);
        intros e [Hin|Hin]; (discriminate Hin || exact (Hno e Hin)).
    + simpl. split; [assumption|].
      intros e [Hin|Hin]; [discriminate Hin | exact (Hno e Hin)].
Qed.


(** ** Helper lemmas on failures and the handler *)

Section Failures.
Context `{ObjectModel}.
Variable out : Stream.

Lemma reportable_iff (e : exn) (h : list string) :
  reportable out e h = true <->
  is_Exception e = true /\
  exists t, format_exn e = Returns t /\
            write out h (error_line t) = Returns tt /\
            write out (h ++ [error_line t]) newline = Returns tt.
Proof.
  unfold reportable. split.
  - intros Hr. apply andb_true_iff in Hr as [He Hr]. split; [assumption|].
    destruct (format_exn e) as [t|]; [|discriminate]. exists t.
    apply andb_true_iff in Hr as [Hw Hn].
    destruct (write out h (error_line t)) as [[]|]; [|discriminate].
    destruct (write out (h ++ [error_line t]) newline) as [[]|]; [|discriminate].
    auto.
  - intros [He (t & Hf & Hw & Hn)]. rewrite He, Hf, Hw, Hn. reflexivity.
Qed.

Lemma handler_raises_unique (e : exn) (h : list string) (e1 e2 : exn) :
  handler_raises out e h e1 -> handler_raises out e h e2 -> e1 = e2.
Proof.
  intros H1 H2. destruct H1; destruct H2; congruence.
Qed.

Lemma handler_raises_not_reportable (e : exn) (h : list string) (e' : exn) :
  handler_raises out e h e' -> reportable out e h = false.
Proof.
  intros Hfail. destruct (reportable out e h) eqn:Hr; [|reflexivity].
  apply reportable_iff in Hr as [_ (t & Hf & Hw & Hn)].
  destruct Hfail; congruence.
Qed.

Lemma failure_excludes_success (lib : Library) (a : Agent) (v : Value)
    (t : string) (e : exn) (h : list string) :
  construction lib = Returns a -> invocation lib a = Returns v ->
  str_value v = Returns t ->
  write out [] t = Returns tt -> write out [t] newline = Returns tt ->
  ~ raised_in_try out lib e h.
Proof.
  intros Hc Hr Hs Hw Hn Hraised. destruct Hraised; congruence.
Qed.

Lemma raised_in_try_cases (lib : Library) (P : exn -> list string -> Prop) :
  (forall e, construction lib = Raises e -> P e []) ->
  (forall a e, construction lib = Returns a -> invocation lib a = Raises e ->
               P e []) ->
  (forall a v e, construction lib = Returns a -> invocation lib a = Returns v ->
                 str_value v = Raises e -> P e []) ->
  (forall a v t e, construction lib = Returns a -> invocation lib a = Returns v ->
                   str_value v = Returns t -> write out [] t = Raises e ->
                   P e [t]) ->
  (forall a v t e, construction lib = Returns a -> invocation lib a = Returns v ->
                   str_value v = Returns t -> write out [] t = Returns tt ->
                   write out [t] newline = Raises e -> P e [t; newline]) ->
  forall e h, raised_in_try out lib e h -> P e h.
Proof. intros H1 H2 H3 H4 H5 e h Hraised. destruct Hraised; eauto. Qed.

End Failures.

Lemma accepted_app (w1 w2 : list (string * bool)) :
  accepted (w1 ++ w2) = accepted w1 ++ accepted w2.
Proof. unfold accepted. rewrite filter_app, map_app. reflexivity. Qed.

Lemma default_format_is_str (e : exn) :
  default_format e = true -> format_exn e = str_exn e.
Proof. destruct e as [k d [f|]]; simpl; [discriminate | reflexivity]. Qed.

(** ** What becomes of a failure raised inside the try *)

(** A failure raised inside the [try] is caught when it is an instance of
    [Exception], and else leaves the process with nothing printed. *)
Lemma raised_failure_fate `{ObjectModel} (out : Stream) (lib : Library)
    (e : exn) (h : list string) :
  import_CodeAgent lib = Returns tt ->
  raised_in_try out lib e h ->
  (is_Exception e = true /\ In (Caught e) (trace out lib)) \/
  (is_Exception e = false /\ termination_of out lib = Uncaught e /\
   printed_output out lib = [] /\ forall e', ~ In (Caught e') (trace out lib)).
Proof.
  intros Hi Hraised. unfold termination_of, printed_output, trace.
  destruct (execution_cases out lib)
    as [(e0 & Hi' & _)
       | [(a & v & t & _ & Hc & Hr & Hs & Hw & Hn & _)
       | (e0 & h0 & sp & _ & Hraised0 & Hp & Hno & Hcase)]].
  - congruence.
  - destruct (failure_excludes_success out lib a v t e h Hc Hr Hs Hw Hn Hraised).
  - destruct (raised_in_try_unique out lib e0 e h0 h Hraised0 Hraised) as [-> ->].
    destruct Hcase
      as [[He Hx] | [[He (t & _ & _ & _ & Hx)] | [He (e' & w' & _ & Hx)]]];
      rewrite Hx; cbn [fst snd steps].
    + right. auto.
    + left. split; [assumption|]. apply in_or_app. right. left. reflexivity.
    + left. split; [assumption|]. apply in_or_app. right. left. reflexivity.
Qed.

(** The handler is entered only for a failure raised inside the [try]. *)
Lemma caught_was_raised `{ObjectModel} (out : Stream) (lib : Library) (e : exn) :
  In (Caught e) (trace out lib) ->
  import_CodeAgent lib = Returns tt /\
  (exists h, raised_in_try out lib e h) /\ is_Exception e = true.
Proof.
  unfold trace.
  destruct (execution_cases out lib)
    as [(e0 & _ & Hx)
       | [(a & v & t & _ & _ & _ & _ & _ & _ & Hx)
       | (e0 & h0 & sp & Hi & Hraised0 & _ & Hno & Hcase)]].
  - rewrite Hx. cbn. intros [Hin|[]]. discriminate Hin.
  - rewrite Hx. cbn. intros [Hin|[Hin|[Hin|[Hin|[]]]]]; discriminate Hin.
  - assert (Htail : forall tl,
              (forall ev, In ev tl -> ev = Caught e0 \/ exists s, ev = Print s) ->
              In (Caught e) (sp ++ tl) -> e = e0).
    { intros tl Htl Hin. apply in_app_or in Hin as [Hin|Hin].
      - destruct (Hno e Hin).
      - destruct (Htl _ Hin) as [Heq|[s Heq]];
          [injection Heq as ->; reflexivity | discriminate Heq]. }
    destruct Hcase
      as [[He Hx] | [[He (t & _ & _ & _ & Hx)] | [He (e' & w' & _ & Hx)]]];
      rewrite Hx; cbn [fst snd steps]; intros Hin.
    + destruct (Hno e Hin).
    + apply Htail in Hin; [subst e; eauto|].
      intros ev [<-|[<-|[]]]; eauto.
    + apply Htail in Hin; [subst e; eauto|].
      intros ev [<-|[]]; eauto.
Qed.

(** ** The stand-ins, run *)

Example answering_runs :
  execution accepting answering =
    (mk_state
       [ImportFrom "smolagents" "CodeAgent";
        Construct {| positional := []; keywords := [("tools", ArgList [])] |};
        Run 7 {| positional := [ArgStr "What is the 15th prime number?"];
                 keywords := [] |};
        Print "47"]
       [("47", true); (newline, true)],
     Returns tt).
Proof. reflexivity. Qed.

Example failing_run_runs :
  execution accepting failing_run =
    (mk_state
       [ImportFrom "smolagents" "CodeAgent";
        Construct {| positional := []; keywords := [("tools", ArgList [])] |};
        Run 7 {| positional := [ArgStr "What is the 15th prime number?"];
                 keywords := [] |};
        Caught value_error;
        Print "Error running CodeAgent: no model configured"]
       [("Error running CodeAgent: no model configured", true); (newline, true)],
     Returns tt).
Proof. reflexivity. Qed.

Example failing_formatted_runs :
  printed_output accepting failing_formatted = ["Error running CodeAgent: F"].
Proof. reflexivity. Qed.

Example answering_cafe_on_ascii_runs :
  execution ascii_stream answering_cafe =
    (mk_state
       [ImportFrom "smolagents" "CodeAgent";
        Construct {| positional := []; keywords := [("tools", ArgList [])] |};
        Run 7 {| positional := [ArgStr "What is the 15th prime number?"];
                 keywords := [] |};
        Caught cannot_encode;
        Print "Error running CodeAgent: 'ascii' codec can't encode character '\xe9' in position 3: ordinal not in range(128)"]
       [(cafe, false);
        ("Error running CodeAgent: 'ascii' codec can't encode character '\xe9' in position 3: ordinal not in range(128)", true);
        (newline, true)],
     Returns tt).
Proof. reflexivity. Qed.

Example failing_cafe_on_ascii_runs :
  execution ascii_stream failing_cafe =
    (mk_state
       [ImportFrom "smolagents" "CodeAgent";
        Construct {| positional := []; keywords := [("tools", ArgList [])] |};
        Run 7 {| positional := [ArgStr "What is the 15th prime number?"];
                 keywords := [] |};
        Caught cafe_error]
       [(error_line cafe, false)],
     Raises cannot_encode).
Proof. reflexivity. Qed.

Example answering_on_closed_stream_runs :
  termination_of closed_stream answering = Uncaught closed_file /\
  printed_output closed_stream answering = [] /\
  chunks_handed closed_stream answering =
    ["47"; "Error running CodeAgent: I/O operation on closed file."].
Proof. repeat split. Qed.

Example answering_on_hiccup_runs :
  termination_of hiccup answering = Completed /\
  printed_output hiccup answering =
    ["Error running CodeAgent: [Errno 5] Input/output error"] /\
  standard_output hiccup answering =
    ("47" ++ "Error running CodeAgent: [Errno 5] Input/output error" ++ newline)%string.
Proof. repeat split. Qed.

Example interrupted_run_runs :
  execution accepting interrupted_run =
    (mk_state
       [ImportFrom "smolagents" "CodeAgent";
        Construct {| positional := []; keywords := [("tools", ArgList [])] |};
        Run 7 {| positional := [ArgStr "What is the 15th prime number?"];
                 keywords := [] |}]
       [],
     Raises keyboard_interrupt).
Proof. reflexivity. Qed.

Example failing_undescribably_runs :
  execution accepting failing_undescribably =
    (mk_state
       [ImportFrom "smolagents" "CodeAgent";
        Construct {| positional := []; keywords := [("tools", ArgList [])] |};
        Caught undescribable]
       [],
     Raises attribute_error).
Proof. reflexivity. Qed.

Example not_installed_runs :
  execution accepting not_installed =
    (mk_state [ImportFrom "smolagents" "CodeAgent"] [], Raises module_not_found).
Proof. reflexivity. Qed.

Example exit_statuses :
  exit_status_of accepting answering = 0%Z /\
  exit_status_of full_device answering = 120%Z /\
  exit_status_of accepting exiting_construction = 3%Z /\
  exit_status_of accepting interrupted_run = 130%Z /\
  exit_status_of accepting not_installed = 1%Z /\
  exit_status true (Uncaught (Exn (SystemExit (CodeInt (2 ^ 63))) (Returns "") None))
    = 255%Z /\
  exit_status true (Uncaught (Exn (SystemExit (CodeInt (-1))) (Returns "-1") None))
    = 255%Z /\
  exit_status true (Uncaught (Exn (SystemExit (CodeInt 256)) (Returns "256") None))
    = 0%Z.
Proof. repeat split. Qed.

(** * The claims *)

(** C1 (as amended): for every behaviour of the library and of standard
    output in which the import succeeds and every failure raised inside the
    [try] (by the construction, by the run invocation, or by
    [print(result)]: [str(result)] or one of its writes) is an instance of
    [Exception] that the handler can report ([format(e, "")] returns and
    the stream accepts the error line and its line end), the script catches
    the failure and the module body ends normally: no exception leaves the
    process. *)
Theorem reportable_failures_are_caught `{ObjectModel} (out : Stream) (lib : Library) :
  import_CodeAgent lib = Returns tt ->
  (forall e h, raised_in_try out lib e h -> reportable out e h = true) ->
  termination_of out lib = Completed.
Proof.
  intros Hi Hall. unfold termination_of.
  destruct (execution_cases out lib)
    as [(e & Hi' & _)
       | [(a & v & t & _ & _ & _ & _ & _ & _ & Hx)
       | (e & h & sp & _ & Hraised & _ & _ &
          [[He _] | [[_ (t & _ & _ & _ & Hx)] | [_ (e' & w' & Hfail & _)]]])]].
  - congruence.
  - rewrite Hx. reflexivity.
  - apply Hall, reportable_iff in Hraised. destruct Hraised. congruence.
  - rewrite Hx. reflexivity.
  - apply Hall in Hraised.
    rewrite (handler_raises_not_reportable out e h e' Hfail) in Hraised.
    discriminate.
Qed.

Lemma reportable_failures_are_caught_witness :
  termination_of accepting failing_run = Completed.
Proof.
  apply (reportable_failures_are_caught accepting failing_run).
  - reflexivity.
  - apply raised_in_try_cases.
    + intros e Hc. discriminate Hc.
    + intros a e _ Hr. injection Hr as <-. reflexivity.
    + intros a v e _ Hr _. discriminate Hr.
    + intros a v t e _ Hr _ _. discriminate Hr.
    + intros a v t e _ Hr _ _ _. discriminate Hr.
Defined.

(** C1 (as stated) fails: when the construction is interrupted from the
    keyboard, the import having succeeded, [KeyboardInterrupt] leaves the
    process uncaught.  An [Exception] is caught and the handler then fails,
    uncaught, when its [__format__] raises, or when [str(e)] returns a text
    the stream cannot encode.  And a failing import is outside the
    [try]. *)
Lemma interrupt_leaves_the_process :
  (import_CodeAgent interrupted_construction = Returns tt /\
   construction interrupted_construction = Raises keyboard_interrupt /\
   termination_of accepting interrupted_construction = Uncaught keyboard_interrupt) /\
  (invocation failing_unformattable 7 = Raises unformattable /\
   is_Exception unformattable = true /\
   str_exn unformattable = Returns "S" /\
   termination_of accepting failing_unformattable = Uncaught attribute_error) /\
  (invocation failing_cafe 7 = Raises cafe_error /\
   is_Exception cafe_error = true /\
   str_exn cafe_error = Returns cafe /\
   termination_of ascii_stream failing_cafe = Uncaught cannot_encode) /\
  (import_CodeAgent not_installed = Raises module_not_found /\
   termination_of accepting not_installed = Uncaught module_not_found).
Proof. repeat split. Qed.

(** C2 (as amended): for every failure [e] that is an instance of
    [Exception], raised by the construction or by the run invocation, for
    which [format(e, "")] returns a text [t] and the stream accepts the
    error line and its line end, the script prints exactly once, the text
    ["Error running CodeAgent: "] followed by [t], on standard output, and
    nothing is raised again: the module body ends normally.  The text [t]
    is [str(e)] unless the class of [e] defines a [__format__] of its
    own. *)
Theorem error_line_printed `{ObjectModel} (out : Stream) (lib : Library)
    (e : exn) (t : string) :
  import_CodeAgent lib = Returns tt ->
  construction lib = Raises e \/
    (exists a, construction lib = Returns a /\ invocation lib a = Raises e) ->
  is_Exception e = true ->
  format_exn e = Returns t ->
  write out [] ("Error running CodeAgent: " ++ t)%string = Returns tt ->
  write out [("Error running CodeAgent: " ++ t)%string] newline = Returns tt ->
  printed_output out lib = [("Error running CodeAgent: " ++ t)%string] /\
  standard_output out lib = ("Error running CodeAgent: " ++ t ++ newline)%string /\
  termination_of out lib = Completed /\
  (default_format e = true -> str_exn e = Returns t).
Proof.
  intros Hi Hraise He Hf Hw Hn.
  assert (Hraised : raised_in_try out lib e []).
  { destruct Hraise as [Hc | [a [Hc Hr]]];
      [apply raised_by_construction | eapply raised_by_run]; eassumption. }
  assert (Hx : exists sp,
    printed sp = [] /\
    execution out lib =
      (mk_state (sp ++ [Caught e; Print (error_line t)])
                [(error_line t, true); (newline, true)],
       Returns tt)).
  { destruct (execution_cases out lib)
      as [(e0 & Hi' & _)
         | [(a & v & t0 & _ & Hc & Hr & Hs & Hw0 & Hn0 & _)
         | (e0 & h & sp & _ & Hraised0 & Hp & _ & Hcase)]].
    - congruence.
    - destruct (failure_excludes_success out lib a v t0 e [] Hc Hr Hs Hw0 Hn0 Hraised).
    - destruct (raised_in_try_unique out lib e0 e h [] Hraised0 Hraised) as [-> ->].
      destruct Hcase
        as [[He' _] | [[_ (t0 & Hf0 & _ & _ & Hx)] | [_ (e' & w' & Hfail & _)]]].
      + congruence.
      + assert (t0 = t) by congruence. subst t0. exists sp. auto.
      + destruct Hfail; unfold error_line in *; rewrite ?app_nil_l in *; congruence. }
  destruct Hx as [sp [Hp Hx]].
  unfold printed_output, standard_output, termination_of, trace. rewrite Hx.
  cbn [fst snd steps written]. rewrite printed_app, Hp.
  repeat split.
  intros Hd. rewrite <- (default_format_is_str e Hd). exact Hf.
Qed.

Lemma error_line_printed_witness :
  printed_output accepting failing_construction =
    ["Error running CodeAgent: no model configured"] /\
  standard_output accepting failing_construction =
    ("Error running CodeAgent: no model configured" ++ newline)%string /\
  termination_of accepting failing_construction = Completed /\
  (default_format value_error = true ->
   str_exn value_error = Returns "no model configured").
Proof.
  apply (error_line_printed accepting failing_construction value_error
           "no model configured"); try reflexivity.
  left. reflexivity.
Defined.

(** C2 (as stated) fails.  A [KeyboardInterrupt] raised during the run
    invocation has a textual description, yet nothing is printed and the
    exception goes on out of the process.  For an [Exception] whose class
    defines [__format__] the line shows what [__format__] returns, not
    [str(e)].  And when [str(e)] is a text the stream cannot encode, the
    handler's print raises and nothing is printed. *)
Lemma interrupt_prints_nothing :
  (invocation interrupted_run 7 = Raises keyboard_interrupt /\
   str_exn keyboard_interrupt = Returns "" /\
   printed_output accepting interrupted_run = [] /\
   termination_of accepting interrupted_run = Uncaught keyboard_interrupt) /\
  (invocation failing_formatted 7 = Raises formatted_error /\
   is_Exception formatted_error = true /\
   str_exn formatted_error = Returns "S" /\
   printed_output accepting failing_formatted = ["Error running CodeAgent: F"] /\
   printed_output accepting failing_formatted <> ["Error running CodeAgent: S"]) /\
  (invocation failing_cafe 7 = Raises cafe_error /\
   is_Exception cafe_error = true /\
   str_exn cafe_error = Returns cafe /\
   printed_output ascii_stream failing_cafe = [] /\
   termination_of ascii_stream failing_cafe = Uncaught cannot_encode).
Proof. repeat split. discriminate. Qed.

(** C3 (as amended): for every value [r] the run invocation returns, with
    [t] its text ([str(r) = t]), such that the stream accepts [t] and the
    line end, the script prints exactly once and the printed text is [t]
    itself, with no prefix or suffix of the script's own; on standard
    output it is [t] and the line end of [print]. *)
Theorem result_printed_as_is `{ObjectModel} (out : Stream) (lib : Library)
    (a : Agent) (r : Value) (t : string) :
  import_CodeAgent lib = Returns tt ->
  construction lib = Returns a ->
  invocation lib a = Returns r ->
  str_value r = Returns t ->
  write out [] t = Returns tt ->
  write out [t] newline = Returns tt ->
  printed_output out lib = [t] /\
  standard_output out lib = (t ++ newline)%string /\
  termination_of out lib = Completed.
Proof.
  intros Hi Hc Hr Hs Hw Hn.
  assert (Hx : execution out lib =
    (mk_state
       [ImportFrom "smolagents" "CodeAgent";
        Construct {| positional := []; keywords := [("tools", ArgList [])] |};
        Run a {| positional := [ArgStr "What is the 15th prime number?"];
                 keywords := [] |};
        Print t]
       [(t, true); (newline, true)],
     Returns tt)).
  { destruct (execution_cases out lib)
      as [(e0 & Hi' & _)
         | [(a0 & v0 & t0 & _ & Hc0 & Hr0 & Hs0 & _ & _ & Hx)
         | (e0 & h & sp & _ & Hraised0 & _)]].
    - congruence.
    - assert (a0 = a) by congruence. subst a0.
      assert (v0 = r) by congruence. subst v0.
      assert (t0 = t) by congruence. subst t0. exact Hx.
    - destruct (failure_excludes_success out lib a r t e0 h Hc Hr Hs Hw Hn Hraised0). }
  unfold printed_output, standard_output, termination_of, trace. rewrite Hx.
  repeat split.
Qed.

Lemma result_printed_as_is_witness :
  printed_output accepting answering = ["47"] /\
  standard_output accepting answering = ("47" ++ newline)%string /\
  termination_of accepting answering = Completed.
Proof.
  apply (result_printed_as_is accepting answering 7 (Answer "47") "47"); reflexivity.
Defined.

(** C3 (as stated) fails: the run invocation returns a value whose text has
    a character the stream cannot encode; [print(result)] raises inside the
    [try] and what the script prints is the error line, not the text of the
    value. *)
Lemma unencodable_result_not_printed :
  import_CodeAgent answering_cafe = Returns tt /\
  construction answering_cafe = Returns 7 /\
  invocation answering_cafe 7 = Returns (Answer cafe) /\
  str_value (Answer cafe) = Returns cafe /\
  printed_output ascii_stream answering_cafe =
    ["Error running CodeAgent: 'ascii' codec can't encode character '\xe9' in position 3: ordinal not in range(128)"] /\
  printed_output ascii_stream answering_cafe <> [cafe].
Proof. repeat split. discriminate. Qed.

(** C4 (as amended): on every execution in which the import succeeds the
    script constructs the agent with exactly one argument, the keyword
    [tools] bound to the empty list; on every execution in which that
    construction returns an agent it invokes the run operation of that
    agent with exactly one argument, the literal request
    ["What is the 15th prime number?"]; it makes no other construction or
    run call; and what it does next is what the library answered at these
    arguments: a failure of either call is the failure the handler catches
    or the process ends with, and the text of the value run returned is the
    first thing handed to standard output. *)
Theorem calls_carry_the_literals `{ObjectModel} (out : Stream) (lib : Library) :
  (forall args, In (Construct args) (trace out lib) ->
     args = {| positional := []; keywords := [("tools", ArgList [])] |}) /\
  (forall a args, In (Run a args) (trace out lib) ->
     args = {| positional := [ArgStr "What is the 15th prime number?"];
               keywords := [] |} /\
     CodeAgent lib {| positional := []; keywords := [("tools", ArgList [])] |}
       = Returns a) /\
  (import_CodeAgent lib = Returns tt ->
     In (Construct {| positional := []; keywords := [("tools", ArgList [])] |})
        (trace out lib) /\
     forall e,
       CodeAgent lib {| positional := []; keywords := [("tools", ArgList [])] |}
         = Raises e ->
       In (Caught e) (trace out lib) \/ termination_of out lib = Uncaught e) /\
  (forall a,
     import_CodeAgent lib = Returns tt ->
     CodeAgent lib {| positional := []; keywords := [("tools", ArgList [])] |}
       = Returns a ->
     In (Run a {| positional := [ArgStr "What is the 15th prime number?"];
                  keywords := [] |})
        (trace out lib) /\
     (forall e,
        run lib a {| positional := [ArgStr "What is the 15th prime number?"];
                     keywords := [] |} = Raises e ->
        In (Caught e) (trace out lib) \/ termination_of out lib = Uncaught e) /\
     (forall r t,
        run lib a {| positional := [ArgStr "What is the 15th prime number?"];
                     keywords := [] |} = Returns r ->
        str_value r = Returns t ->
        exists rest, chunks_handed out lib = t :: rest)).
Proof.
  assert (Hfate : forall e h,
            import_CodeAgent lib = Returns tt -> raised_in_try out lib e h ->
            In (Caught e) (trace out lib) \/ termination_of out lib = Uncaught e).
  { intros e h Hi Hraised.
    destruct (raised_failure_fate out lib e h Hi Hraised) as [[_ Hin] | (_ & Hu & _)];
      auto. }
  split; [|split; [|split]].
  - intros args Hin. apply (construct_event_inv out lib args Hin).
  - intros a args Hin. apply (run_event_inv out lib a args Hin).
  - intros Hi. split.
    + assert (Hc : In (Construct {| positional := [];
                                    keywords := [("tools", ArgList [])] |})
                      (library_calls (trace out lib))).
      { rewrite library_calls_trace, Hi. left. reflexivity. }
      apply filter_In in Hc. apply Hc.
    + intros e Hc. apply (Hfate e [] Hi). apply raised_by_construction. exact Hc.
  - intros a Hi Hc. split; [|split].
    + assert (Hr : In (Run a {| positional := [ArgStr "What is the 15th prime number?"];
                                keywords := [] |})
                      (library_calls (trace out lib))).
      { rewrite library_calls_trace, Hi. unfold construction. rewrite Hc.
        right. left. reflexivity. }
      apply filter_In in Hr. apply Hr.
    + intros e Hr. apply (Hfate e [] Hi). eapply raised_by_run; eassumption.
    + intros r t Hr Hs. unfold chunks_handed.
      change (construction lib = Returns a) in Hc.
      change (invocation lib a = Returns r) in Hr.
      destruct (execution_cases out lib)
        as [(e0 & Hi' & _)
           | [(a0 & v0 & t0 & _ & Hc0 & Hr0 & Hs0 & _ & _ & Hx)
           | (e0 & h & sp & _ & Hraised0 & _ & _ & Hcase)]].
      * congruence.
      * assert (a0 = a) by congruence. subst a0.
        assert (v0 = r) by congruence. subst v0.
        assert (t0 = t) by congruence. subst t0.
        rewrite Hx. cbn. eauto.
      * assert (Hh : exists h', h = t :: h').
        { destruct Hraised0
            as [e1 Hc1 | a1 e1 Hc1 Hr1 | a1 v1 e1 Hc1 Hr1 Hs1
               | a1 v1 t1 e1 Hc1 Hr1 Hs1 Hw1 | a1 v1 t1 e1 Hc1 Hr1 Hs1 Hw1 Hn1];
            try congruence;
            (assert (a1 = a) by congruence; subst a1;
             assert (v1 = r) by congruence; subst v1;
             assert (t1 = t) by congruence; subst t1; eauto). }
        destruct Hh as [h' ->].
        destruct Hcase
          as [[_ Hx] | [[_ (t1 & _ & _ & _ & Hx)] | [_ (e' & w' & _ & Hx)]]];
          rewrite Hx; cbn [fst written]; rewrite ?map_app, map_fst_refused_last;
          cbn; eauto.
Qed.

Lemma calls_carry_the_literals_witness :
  (In (Construct {| positional := []; keywords := [("tools", ArgList [])] |})
      (trace accepting answering) /\
   In (Run 7 {| positional := [ArgStr "What is the 15th prime number?"];
                keywords := [] |})
      (trace accepting answering) /\
   exists rest, chunks_handed accepting answering = "47" :: rest) /\
  (In (Caught value_error) (trace accepting failing_run) \/
   termination_of accepting failing_run = Uncaught value_error).
Proof.
  split.
  - destruct (calls_carry_the_literals accepting answering) as (_ & _ & Hc & Hr).
    split; [apply Hc; reflexivity|].
    destruct (Hr 7 eq_refl eq_refl) as (Hin & _ & Hs).
    split; [exact Hin|]. apply (Hs (Answer "47")); reflexivity.
  - destruct (calls_carry_the_literals accepting failing_run) as (_ & _ & _ & Hr).
    destruct (Hr 7 eq_refl eq_refl) as (_ & He & _). apply He. reflexivity.
Defined.

(** C4 (as stated) fails: not every execution constructs an agent and
    invokes run.  When the library is not installed the import is the only
    step; when the construction raises, no run invocation follows. *)
Lemma calls_not_on_every_execution :
  (trace accepting not_installed = [ImportFrom "smolagents" "CodeAgent"] /\
   forall args, ~ In (Construct args) (trace accepting not_installed)) /\
  (trace accepting failing_construction =
     [ImportFrom "smolagents" "CodeAgent";
      Construct {| positional := []; keywords := [("tools", ArgList [])] |};
      Caught value_error;
      Print "Error running CodeAgent: no model configured"] /\
   forall a args, ~ In (Run a args) (trace accepting failing_construction)).
Proof.
  split; (split; [reflexivity|]).
  - intros args [Hin|[]]. discriminate Hin.
  - intros a args [Hin|[Hin|[Hin|[Hin|[]]]]]; discriminate Hin.
Qed.

(** C5: in every execution the construction happens at most once and the
    run invocation at most once; a run invocation comes only after the
    construction, on the agent that construction returned, and no library
    call follows it; once a failure has been caught no library call follows
    (no retry); and nothing at all follows a print: the result's print or
    the handler's print is the last step. *)
Theorem single_attempt `{ObjectModel} (out : Stream) (lib : Library) :
  length (filter is_construct (trace out lib)) <= 1 /\
  length (filter is_run (trace out lib)) <= 1 /\
  (forall pre a args post,
     trace out lib = pre ++ Run a args :: post ->
     construction lib = Returns a /\
     (exists c, In (Construct c) pre) /\
     forall ev, In ev post -> is_call ev = false) /\
  (forall pre e post,
     trace out lib = pre ++ Caught e :: post ->
     forall ev, In ev post -> is_call ev = false) /\
  (forall pre s post,
     trace out lib = pre ++ Print s :: post -> post = []).
Proof.
  pose proof (trace_in_order out lib) as Hord. unfold in_order in Hord.
  destruct (reach Start (trace out lib)) as [r|] eqn:Hreach; [clear Hord|discriminate].
  split; [|split; [|split; [|split]]].
  - clear Hreach. unfold_script. split_outcomes; lia.
  - clear Hreach. unfold_script. split_outcomes; lia.
  - intros pre a args post Htr. rewrite Htr in Hreach.
    destruct (reach_split _ _ _ _ _ Hreach) as (q & q' & Hpre & Hadv & Hpost).
    assert (Hq : q = Constructed /\ q' = Invoked).
    { destruct q; simpl in Hadv; try discriminate. injection Hadv as <-. auto. }
    destruct Hq as [-> ->]. split; [|split].
    + apply (run_event_inv out lib a args). rewrite Htr.
      apply in_or_app. right. left. reflexivity.
    + destruct (construction_before_constructed pre Start Hpre) as [Hs|Hc];
        [discriminate Hs | exact Hc].
    + exact (no_call_past_the_calls post Invoked r eq_refl Hpost).
  - intros pre e post Htr. rewrite Htr in Hreach.
    destruct (reach_split _ _ _ _ _ Hreach) as (q & q' & _ & Hadv & Hpost).
    assert (Hq : q' = Handling).
    { destruct q; simpl in Hadv; try discriminate; injection Hadv as <-; auto. }
    subst q'. exact (no_call_past_the_calls post Handling r eq_refl Hpost).
  - intros pre s post Htr. rewrite Htr in Hreach.
    destruct (reach_split _ _ _ _ _ Hreach) as (q & q' & _ & Hadv & Hpost).
    assert (Hq : q' = Finished).
    { destruct q; simpl in Hadv; try discriminate; injection Hadv as <-; auto. }
    subst q'. exact (nothing_after_finished post r Hpost).
Qed.

Lemma single_attempt_witness :
  construction failing_run = Returns 7 /\
  (exists c, In (Construct c) [ImportFrom "smolagents" "CodeAgent";
       Construct {| positional := []; keywords := [("tools", ArgList [])] |}]) /\
  forall ev,
    In ev [Caught value_error;
           Print "Error running CodeAgent: no model configured"] ->
    is_call ev = false.
Proof.
  destruct (single_attempt accepting failing_run) as (_ & _ & Hrun & _ & _).
  apply (Hrun _ 7 {| positional := [ArgStr "What is the 15th prime number?"];
                     keywords := [] |}).
  reflexivity.
Defined.




(** C7 (as amended): every execution in which the import succeeds and every
    failure raised inside the [try] is an instance of [Exception] that the
    handler can report completes exactly one print call: either the print
    of the text of the result, the handler not having been entered, or the
    print of the single error line for the failure the handler caught;
    never both and never neither. *)
Theorem exactly_one_print `{ObjectModel} (out : Stream) (lib : Library) :
  import_CodeAgent lib = Returns tt ->
  (forall e h, raised_in_try out lib e h -> reportable out e h = true) ->
  length (printed_output out lib) = 1 /\
  ((exists a r t,
       construction lib = Returns a /\ invocation lib a = Returns r /\
       str_value r = Returns t /\
       printed_output out lib = [t] /\
       forall e, ~ In (Caught e) (trace out lib)) \/
   (exists e h t,
       raised_in_try out lib e h /\ format_exn e = Returns t /\
       printed_output out lib = [("Error running CodeAgent: " ++ t)%string] /\
       In (Caught e) (trace out lib))).
Proof.
  intros Hi Hall. unfold printed_output, trace.
  destruct (execution_cases out lib)
    as [(e & Hi' & _)
       | [(a & v & t & _ & Hc & Hr & Hs & _ & _ & Hx)
       | (e & h & sp & _ & Hraised & Hp & _ &
          [[He _] | [[_ (t & Hf & _ & _ & Hx)] | [_ (e' & w' & Hfail & _)]]])]].
  - congruence.
  - rewrite Hx. cbn [fst steps]. split; [reflexivity|]. left.
    exists a, v, t. repeat split; try assumption.
    intros e [Hin|[Hin|[Hin|[Hin|[]]]]]; discriminate Hin.
  - apply Hall, reportable_iff in Hraised. destruct Hraised. congruence.
  - rewrite Hx. cbn [fst steps]. rewrite printed_app, Hp.
    split; [reflexivity|]. right. exists e, h, t. repeat split; try assumption.
    apply in_or_app. right. left. reflexivity.
  - apply Hall in Hraised.
    rewrite (handler_raises_not_reportable out e h e' Hfail) in Hraised.
    discriminate.
Qed.

Lemma exactly_one_print_witness :
  length (printed_output accepting failing_run) = 1 /\
  ((exists a r t,
       construction failing_run = Returns a /\
       invocation failing_run a = Returns r /\
       str_value r = Returns t /\
       printed_output accepting failing_run = [t] /\
       forall e, ~ In (Caught e) (trace accepting failing_run)) \/
   (exists e h t,
       raised_in_try accepting failing_run e h /\ format_exn e = Returns t /\
       printed_output accepting failing_run =
         [("Error running CodeAgent: " ++ t)%string] /\
       In (Caught e) (trace accepting failing_run))).
Proof.
  apply (exactly_one_print accepting failing_run).
  - reflexivity.
  - apply raised_in_try_cases.
    + intros e Hc. discriminate Hc.
    + intros a e _ Hr. injection Hr as <-. reflexivity.
    + intros a v e _ Hr _. discriminate Hr.
    + intros a v t e _ Hr _ _. discriminate Hr.
    + intros a v t e _ Hr _ _ _. discriminate Hr.
Defined.

(** C7 (as stated) fails: an execution in which the run invocation is
    interrupted from the keyboard prints nothing, neither the result nor
    the error line; so does one in which the library is not installed, one
    in which the caught [Exception] has a [__format__] that raises, and one
    in which its message is a text the stream cannot encode.  And when the
    stream takes the text of the result and refuses its line end, the text
    of the result and the error line both reach standard output, though
    only the print of the error line completes. *)
Lemma nothing_printed :
  (invocation interrupted_run 7 = Raises keyboard_interrupt /\
   printed_output accepting interrupted_run = []) /\
  (import_CodeAgent not_installed = Raises module_not_found /\
   printed_output accepting not_installed = []) /\
  (invocation failing_unformattable 7 = Raises unformattable /\
   is_Exception unformattable = true /\
   printed_output accepting failing_unformattable = []) /\
  (invocation failing_cafe 7 = Raises cafe_error /\
   is_Exception cafe_error = true /\
   printed_output ascii_stream failing_cafe = []) /\
  (invocation answering 7 = Returns (Answer "47") /\
   printed_output hiccup answering =
     ["Error running CodeAgent: [Errno 5] Input/output error"] /\
   standard_output hiccup answering =
     ("47" ++ "Error running CodeAgent: [Errno 5] Input/output error" ++ newline)%string).
Proof. repeat split. Qed.

(** C8: a failure raised by the import, of whatever class, leaves the
    process uncaught: the import is the only step taken, the handler is not
    entered and nothing is printed.  The handler is entered for a failure
    exactly when the import succeeded and the failure, an instance of
    [Exception], was raised inside the [try]: by the construction, by the
    run invocation, or by printing the result ([str(result)] and the two
    writes of [print(result)]). *)
Theorem import_is_outside_the_try `{ObjectModel} (out : Stream) (lib : Library) :
  (forall e, import_CodeAgent lib = Raises e ->
     termination_of out lib = Uncaught e /\
     trace out lib = [ImportFrom "smolagents" "CodeAgent"] /\
     printed_output out lib = []) /\
  (forall e, In (Caught e) (trace out lib) <->
     import_CodeAgent lib = Returns tt /\
     (exists h, raised_in_try out lib e h) /\
     is_Exception e = true).
Proof.
  split.
  - intros e Hi. unfold printed_output, termination_of, trace.
    destruct (execution_cases out lib)
      as [(e0 & Hi' & Hx)
         | [(a & v & t & Hi' & _)
         | (e0 & h & sp & Hi' & _)]]; try congruence.
    rewrite Hx. assert (e0 = e) by congruence. subst e0. repeat split.
  - intros e. split.
    + apply caught_was_raised.
    + intros (Hi & [h Hraised] & He).
      destruct (raised_failure_fate out lib e h Hi Hraised) as [[_ Hin] | [He' _]];
        [exact Hin | congruence].
Qed.

Lemma import_is_outside_the_try_witness :
  (termination_of accepting not_installed = Uncaught module_not_found /\
   trace accepting not_installed = [ImportFrom "smolagents" "CodeAgent"] /\
   printed_output accepting not_installed = []) /\
  In (Caught value_error) (trace accepting failing_construction) /\
  In (Caught value_error) (trace accepting failing_run) /\
  In (Caught value_error) (trace accepting answering_unprintably) /\
  In (Caught cannot_encode) (trace ascii_stream answering_cafe).
Proof.
  split; [|split; [|split; [|split]]].
  - apply (proj1 (import_is_outside_the_try accepting not_installed)). reflexivity.
  - apply (proj2 (import_is_outside_the_try accepting failing_construction)).
    split; [reflexivity|]. split; [|reflexivity]. exists [].
    apply (raised_by_construction accepting failing_construction). reflexivity.
  - apply (proj2 (import_is_outside_the_try accepting failing_run)).
    split; [reflexivity|]. split; [|reflexivity]. exists [].
    apply (raised_by_run accepting failing_run 7); reflexivity.
  - apply (proj2 (import_is_outside_the_try accepting answering_unprintably)).
    split; [reflexivity|]. split; [|reflexivity]. exists [].
    apply (raised_by_str accepting answering_unprintably 7 (Unprintable value_error));
      reflexivity.
  - apply (proj2 (import_is_outside_the_try ascii_stream answering_cafe)).
    split; [reflexivity|]. split; [|reflexivity]. exists [cafe].
    apply (raised_by_write ascii_stream answering_cafe 7 (Answer cafe)); reflexivity.
Defined.

(** C9: a failure that is not an instance of [Exception] (such as
    [KeyboardInterrupt] or [SystemExit]), raised by the construction or by
    the run invocation, leaves the process uncaught: the handler is not
    entered and no error line (nothing at all) is printed. *)
Theorem non_Exception_propagates `{ObjectModel} (out : Stream) (lib : Library)
    (e : exn) :
  import_CodeAgent lib = Returns tt ->
  construction lib = Raises e \/
    (exists a, construction lib = Returns a /\ invocation lib a = Raises e) ->
  is_Exception e = false ->
  termination_of out lib = Uncaught e /\
  printed_output out lib = [] /\
  forall e', ~ In (Caught e') (trace out lib).
Proof.
  intros Hi Hraise He.
  assert (Hraised : raised_in_try out lib e []).
  { destruct Hraise as [Hc | [a [Hc Hr]]];
      [apply raised_by_construction | eapply raised_by_run]; eassumption. }
  destruct (raised_failure_fate out lib e [] Hi Hraised) as [[He' _] | (_ & Hrest)];
    [congruence | exact Hrest].
Qed.

Lemma non_Exception_propagates_witness :
  termination_of accepting exiting_construction = Uncaught system_exit_3 /\
  printed_output accepting exiting_construction = [] /\
  forall e', ~ In (Caught e') (trace accepting exiting_construction).
Proof.
  apply (non_Exception_propagates accepting exiting_construction system_exit_3).
  - reflexivity.
  - left. reflexivity.
  - reflexivity.
Defined.

(** C10 (as amended): the output is a function of what the library does at
    the two calls and of what standard output does with the text, and of
    nothing else: for any two executions, the import having succeeded in
    both, whose streams answer every write alike, whose construction
    returns the same agent or raises the same failure and whose run
    invocation on that agent returns the same value or raises the same
    failure, the prints, the characters on standard output and the way the
    module body ends are the same, whatever the two libraries do
    elsewhere. *)
Theorem output_determined_by_the_calls `{ObjectModel}
    (out1 out2 : Stream) (lib1 lib2 : Library) :
  (forall h chunk, write out1 h chunk = write out2 h chunk) ->
  import_CodeAgent lib1 = Returns tt ->
  import_CodeAgent lib2 = Returns tt ->
  construction lib1 = construction lib2 ->
  (forall a, construction lib1 = Returns a ->
             invocation lib1 a = invocation lib2 a) ->
  printed_output out1 lib1 = printed_output out2 lib2 /\
  standard_output out1 lib1 = standard_output out2 lib2 /\
  termination_of out1 lib1 = termination_of out2 lib2.
Proof.
  intros Hw Hi1 Hi2 Hc Hr.
  assert (Hprint : forall s st, print_text out1 s st = print_text out2 s st).
  { intros s st. unfold print_text, write_stdout, bind, log.
    rewrite (Hw (map fst (written st)) s).
    destruct (write out2 (map fst (written st)) s) as [[]|e]; [|reflexivity].
    cbn. rewrite Hw. reflexivity. }
  assert (Htry : forall st, try_suite out1 lib1 st = try_suite out2 lib2 st).
  { intros st. unfold try_suite, call_CodeAgent, call_run, print, bind, log, lift.
    cbn -[print_text]. unfold construction in Hc. rewrite <- Hc.
    destruct (CodeAgent lib1 _) as [a|e] eqn:Hc1; [|reflexivity].
    specialize (Hr a Hc1). unfold invocation in Hr. rewrite <- Hr.
    destruct (run lib1 a _) as [v|e]; [|reflexivity].
    destruct (str_value v) as [t|e]; [|reflexivity].
    apply Hprint. }
  assert (Hexcept : forall e st, except_suite out1 e st = except_suite out2 e st).
  { intros e st. unfold except_suite, bind, lift.
    destruct (format_exn e) as [t|e']; [apply Hprint | reflexivity]. }
  assert (Hx : execution out1 lib1 = execution out2 lib2).
  { unfold execution, run_smolagents, import_from, try_except_Exception,
      bind, log, lift.
    cbn -[try_suite except_suite]. rewrite Hi1, Hi2, Htry.
    destruct (try_suite out2 lib2 _) as [st [u|e]]; [reflexivity|].
    destruct (is_Exception e); [|reflexivity].
    apply Hexcept. }
  unfold printed_output, standard_output, termination_of, trace. rewrite Hx. auto.
Qed.

Lemma output_determined_by_the_calls_witness :
  printed_output accepting answering = printed_output full_device answering_narrowly /\
  standard_output accepting answering = standard_output full_device answering_narrowly /\
  termination_of accepting answering = termination_of full_device answering_narrowly.
Proof.
  apply (output_determined_by_the_calls accepting full_device answering
           answering_narrowly).
  - intros h chunk. reflexivity.
  - reflexivity.
  - reflexivity.
  - reflexivity.
  - intros a Hc. injection Hc as <-. reflexivity.
Defined.

(** C10 (as stated) fails: the library's calls alone do not determine the
    output.  The same library, returning the same value from the same
    calls, prints the text of the value on a stream that can encode it and
    the error line on a stream that cannot. *)
Lemma output_depends_on_the_stream :
  construction answering_cafe = Returns 7 /\
  invocation answering_cafe 7 = Returns (Answer cafe) /\
  printed_output accepting answering_cafe = [cafe] /\
  printed_output ascii_stream answering_cafe =
    ["Error running CodeAgent: 'ascii' codec can't encode character '\xe9' in position 3: ordinal not in range(128)"] /\
  printed_output accepting answering_cafe <> printed_output ascii_stream answering_cafe.
Proof. repeat split. discriminate. Qed.

(** * Further properties of the script *)

(** ** A result that cannot be printed *)

(** X1: [print(result)] is inside the [try]: when the run invocation
    returned and [print(result)] raises an [Exception] [e] (from
    [str(result)], or from a write the stream refuses) that the handler can
    report, with [format(e, "")] returning [t], the failure is reported
    like one of the library calls: the only completed print is the error
    line for [t], and the module body ends normally. *)
Theorem unprintable_result_is_reported `{ObjectModel} (out : Stream) (lib : Library)
    (a : Agent) (r : Value) (e : exn) (h : list string) (t : string) :
  import_CodeAgent lib = Returns tt ->
  construction lib = Returns a ->
  invocation lib a = Returns r ->
  raised_in_try out lib e h ->
  is_Exception e = true ->
  format_exn e = Returns t ->
  write out h ("Error running CodeAgent: " ++ t)%string = Returns tt ->
  write out (h ++ [("Error running CodeAgent: " ++ t)%string]) newline = Returns tt ->
  printed_output out lib = [("Error running CodeAgent: " ++ t)%string] /\
  termination_of out lib = Completed /\
  In (Caught e) (trace out lib).
Proof.
  intros Hi Hc Hr Hraised He Hf Hw Hn.
  unfold printed_output, termination_of, trace.
  destruct (execution_cases out lib)
    as [(e0 & Hi' & _)
       | [(a0 & v0 & t0 & _ & Hc0 & Hr0 & Hs0 & Hw0 & Hn0 & _)
       | (e0 & h0 & sp & _ & Hraised0 & Hp & _ & Hcase)]].
  - congruence.
  - destruct (failure_excludes_success out lib a0 v0 t0 e h Hc0 Hr0 Hs0 Hw0 Hn0 Hraised).
  - destruct (raised_in_try_unique out lib e0 e h0 h Hraised0 Hraised) as [-> ->].
    destruct Hcase
      as [[He' _] | [[_ (t0 & Hf0 & _ & _ & Hx)] | [_ (e' & w' & Hfail & _)]]].
    + congruence.
    + assert (t0 = t) by congruence. subst t0.
      rewrite Hx. cbn [fst snd steps]. rewrite printed_app, Hp.
      repeat split. apply in_or_app. right. left. reflexivity.
    + destruct Hfail; unfold error_line in *; congruence.
Qed.

Lemma unprintable_result_is_reported_witness :
  (printed_output accepting answering_unprintably =
     ["Error running CodeAgent: no model configured"] /\
   termination_of accepting answering_unprintably = Completed /\
   In (Caught value_error) (trace accepting answering_unprintably)) /\
  (printed_output ascii_stream answering_cafe =
     ["Error running CodeAgent: 'ascii' codec can't encode character '\xe9' in position 3: ordinal not in range(128)"] /\
   termination_of ascii_stream answering_cafe = Completed /\
   In (Caught cannot_encode) (trace ascii_stream answering_cafe)).
Proof.
  split.
  - apply (unprintable_result_is_reported accepting answering_unprintably 7
             (Unprintable value_error) value_error [] "no model configured");
      try reflexivity.
    apply (raised_by_str accepting answering_unprintably 7 (Unprintable value_error));
      reflexivity.
  - apply (unprintable_result_is_reported ascii_stream answering_cafe 7
             (Answer cafe) cannot_encode [cafe]
             "'ascii' codec can't encode character '\xe9' in position 3: ordinal not in range(128)");
      try reflexivity.
    apply (raised_by_write ascii_stream answering_cafe 7 (Answer cafe)); reflexivity.
Defined.

(** ** A failure inside the handler *)

(** X2: the handler itself is not guarded: when the failure [e] caught from
    the [try] is an [Exception] and the handler fails with [e'] (because
    [format(e, "")] raises, or the write of the error line or of its line
    end does), the handler has been entered for [e], no print completes,
    and [e'] (of whatever class, an [Exception] included) leaves the process
    uncaught. *)
Theorem handler_failure_escapes `{ObjectModel} (out : Stream) (lib : Library)
    (e : exn) (h : list string) (e' : exn) :
  import_CodeAgent lib = Returns tt ->
  raised_in_try out lib e h ->
  is_Exception e = true ->
  handler_raises out e h e' ->
  termination_of out lib = Uncaught e' /\
  printed_output out lib = [] /\
  In (Caught e) (trace out lib).
Proof.
  intros Hi Hraised He Hfail.
  unfold printed_output, termination_of, trace.
  destruct (execution_cases out lib)
    as [(e0 & Hi' & _)
       | [(a0 & v0 & t0 & _ & Hc0 & Hr0 & Hs0 & Hw0 & Hn0 & _)
       | (e0 & h0 & sp & _ & Hraised0 & Hp & _ & Hcase)]].
  - congruence.
  - destruct (failure_excludes_success out lib a0 v0 t0 e h Hc0 Hr0 Hs0 Hw0 Hn0 Hraised).
  - destruct (raised_in_try_unique out lib e0 e h0 h Hraised0 Hraised) as [-> ->].
    destruct Hcase
      as [[He' _] | [[_ (t0 & Hf0 & Hw0 & Hn0 & _)] | [_ (e1 & w' & Hfail1 & Hx)]]].
    + congruence.
    + destruct Hfail; congruence.
    + rewrite (handler_raises_unique out e h e' e1 Hfail Hfail1).
      rewrite Hx. cbn [fst snd steps]. rewrite printed_app, Hp.
      repeat split. apply in_or_app. right. left. reflexivity.
Qed.

Lemma handler_failure_escapes_witness :
  (termination_of accepting failing_undescribably = Uncaught attribute_error /\
   printed_output accepting failing_undescribably = [] /\
   In (Caught undescribable) (trace accepting failing_undescribably)) /\
  (termination_of ascii_stream failing_cafe = Uncaught cannot_encode /\
   printed_output ascii_stream failing_cafe = [] /\
   In (Caught cafe_error) (trace ascii_stream failing_cafe)).
Proof.
  split.
  - apply (handler_failure_escapes accepting failing_undescribably undescribable []).
    + reflexivity.
    + apply (raised_by_construction accepting failing_undescribably). reflexivity.
    + reflexivity.
    + apply format_raises. reflexivity.
  - apply (handler_failure_escapes ascii_stream failing_cafe cafe_error []).
    + reflexivity.
    + apply (raised_by_run ascii_stream failing_cafe 7); reflexivity.
    + reflexivity.
    + apply (line_write_raises ascii_stream cafe_error [] cannot_encode cafe);
        reflexivity.
Defined.

(** ** Output and termination go together *)

(** X3: in every execution the module body ends normally exactly when one
    print call completed, and an execution that ends with an uncaught
    exception has completed none: no print completes before a failure. *)
Theorem prints_once_iff_completed `{ObjectModel} (out : Stream) (lib : Library) :
  (termination_of out lib = Completed <-> length (printed_output out lib) = 1) /\
  (forall e, termination_of out lib = Uncaught e -> printed_output out lib = []).
Proof.
  unfold termination_of, printed_output, trace.
  destruct (execution_cases out lib)
    as [(e & _ & Hx)
       | [(a & v & t & _ & _ & _ & _ & _ & _ & Hx)
       | (e & h & sp & _ & _ & Hp & _ &
          [[_ Hx] | [[_ (t & _ & _ & _ & Hx)] | [_ (e' & w' & _ & Hx)]]])]];
    rewrite Hx; cbn [fst snd steps]; rewrite ?printed_app, ?Hp; simpl;
    (split; [split; intros Hy; (discriminate Hy || reflexivity)
            | intros e1 Hy; (discriminate Hy || reflexivity)]).
Qed.

Lemma prints_once_iff_completed_witness :
  length (printed_output accepting failing_run) = 1 /\
  printed_output accepting interrupted_run = [].
Proof.
  split.
  - apply (proj1 (prints_once_iff_completed accepting failing_run)). reflexivity.
  - apply (proj2 (prints_once_iff_completed accepting interrupted_run)
             keyboard_interrupt).
    reflexivity.
Defined.

(** X4: the module body ends normally exactly when the import succeeds and
    every failure raised inside the [try] is an instance of [Exception]
    that the handler can report ([format(e, "")] returns and the stream
    accepts the error line and its line end): these conditions are
    necessary as well as sufficient. *)
Theorem completed_iff_failures_reportable `{ObjectModel} (out : Stream) (lib : Library) :
  termination_of out lib = Completed <->
  (import_CodeAgent lib = Returns tt /\
   forall e h, raised_in_try out lib e h -> reportable out e h = true).
Proof.
  unfold termination_of.
  destruct (execution_cases out lib)
    as [(e & Hi & Hx)
       | [(a & v & t & Hi & Hc & Hr & Hs & Hw & Hn & Hx)
       | (e & h & sp & Hi & Hraised & _ & _ &
          [[He Hx] | [[He (t & Hf & Hw & Hn & Hx)] | [He (e' & w' & Hfail & Hx)]]])]];
    rewrite Hx; cbn [snd].
  - split; [discriminate|]. intros [Hi' _]. congruence.
  - split; [|reflexivity]. intros _. split; [assumption|].
    intros e h Hraised.
    destruct (failure_excludes_success out lib a v t e h Hc Hr Hs Hw Hn Hraised).
  - split; [discriminate|]. intros [_ Hall].
    apply Hall, reportable_iff in Hraised. destruct Hraised. congruence.
  - split; [|reflexivity]. intros _. split; [assumption|].
    intros e1 h1 Hraised1.
    destruct (raised_in_try_unique out lib e1 e h1 h Hraised1 Hraised) as [-> ->].
    apply reportable_iff. eauto.
  - split; [discriminate|]. intros [_ Hall].
    apply Hall in Hraised.
    rewrite (handler_raises_not_reportable out e h e' Hfail) in Hraised.
    discriminate.
Qed.

Lemma completed_iff_failures_reportable_witness :
  reportable accepting value_error [] = true /\
  termination_of ascii_stream answering_cafe = Completed.
Proof.
  split.
  - apply (proj1 (completed_iff_failures_reportable accepting failing_run));
      [reflexivity|].
    apply (raised_by_run accepting failing_run 7); reflexivity.
  - apply (proj2 (completed_iff_failures_reportable ascii_stream answering_cafe)).
    split; [reflexivity|]. apply raised_in_try_cases.
    + intros e Hc. discriminate Hc.
    + intros a e _ Hr. discriminate Hr.
    + intros a v e _ Hr Hs. injection Hr as <-. discriminate Hs.
    + intros a v t e _ Hr Hs Hw. injection Hr as <-. injection Hs as <-.
      injection Hw as <-. reflexivity.
    + intros a v t e _ Hr Hs Hw _. injection Hr as <-. injection Hs as <-.
      discriminate Hw.
Defined.

(** ** What can leave the process *)

(** X5: an exception [e'] leaves the process uncaught in exactly three
    ways: the import raised it; or it was raised inside the [try] and is
    not an instance of [Exception]; or the handler, entered for an
    [Exception] raised inside the [try], raised it ([format(e, "")] or one
    of the handler's two writes). *)
Theorem uncaught_origin `{ObjectModel} (out : Stream) (lib : Library) (e' : exn) :
  termination_of out lib = Uncaught e' <->
  (import_CodeAgent lib = Raises e' \/
   (import_CodeAgent lib = Returns tt /\
    exists h, raised_in_try out lib e' h /\ is_Exception e' = false) \/
   (import_CodeAgent lib = Returns tt /\
    exists e h, raised_in_try out lib e h /\ is_Exception e = true /\
                handler_raises out e h e')).
Proof.
  unfold termination_of.
  destruct (execution_cases out lib)
    as [(e & Hi & Hx)
       | [(a & v & t & Hi & Hc & Hr & Hs & Hw & Hn & Hx)
       | (e & h & sp & Hi & Hraised & _ & _ &
          [[He Hx] | [[He (t & Hf & Hw & Hn & Hx)] | [He (e1 & w' & Hfail & Hx)]]])]];
    rewrite Hx; cbn [snd].
  - split.
    + intros [= <-]. left. assumption.
    + intros [Hi' | [[Hi' _] | [Hi' _]]]; congruence.
  - split; [discriminate|].
    intros [Hi' | [(_ & h & Hraised & _) | (_ & e & h & Hraised & _)]];
      [congruence | |];
      destruct (failure_excludes_success out lib a v t _ h Hc Hr Hs Hw Hn Hraised).
  - split.
    + intros [= <-]. right. left. eauto.
    + intros [Hi' | [(_ & h1 & Hraised1 & _) | (_ & e2 & h2 & Hraised2 & He2 & _)]].
      * congruence.
      * destruct (raised_in_try_unique out lib e' e h1 h Hraised1 Hraised) as [-> _].
        reflexivity.
      * destruct (raised_in_try_unique out lib e2 e h2 h Hraised2 Hraised) as [-> _].
        congruence.
  - split; [discriminate|].
    intros [Hi' | [(_ & h1 & Hraised1 & He1) | (_ & e2 & h2 & Hraised2 & _ & Hfail2)]].
    + congruence.
    + destruct (raised_in_try_unique out lib e' e h1 h Hraised1 Hraised) as [-> _].
      congruence.
    + destruct (raised_in_try_unique out lib e2 e h2 h Hraised2 Hraised) as [-> ->].
      destruct Hfail2; congruence.
  - split.
    + intros [= <-]. right. right. split; [assumption|]. exists e, h. auto.
    + intros [Hi' | [(_ & h1 & Hraised1 & He1) | (_ & e2 & h2 & Hraised2 & _ & Hfail2)]].
      * congruence.
      * destruct (raised_in_try_unique out lib e' e h1 h Hraised1 Hraised) as [-> _].
        congruence.
      * destruct (raised_in_try_unique out lib e2 e h2 h Hraised2 Hraised) as [-> ->].
        rewrite (handler_raises_unique out e h e' e1 Hfail2 Hfail). reflexivity.
Qed.

Lemma uncaught_origin_witness :
  termination_of accepting interrupted_run = Uncaught keyboard_interrupt /\
  termination_of accepting failing_unformattable = Uncaught attribute_error.
Proof.
  split.
  - apply (proj2 (uncaught_origin accepting interrupted_run keyboard_interrupt)).
    right. left. split; [reflexivity|]. exists []. split; [|reflexivity].
    apply (raised_by_run accepting interrupted_run 7); reflexivity.
  - apply (proj2 (uncaught_origin accepting failing_unformattable attribute_error)).
    right. right. split; [reflexivity|]. exists unformattable, [].
    split; [|split; [reflexivity|]].
    + apply (raised_by_run accepting failing_unformattable 7); reflexivity.
    + apply format_raises. reflexivity.
Defined.

(** ** A failure can look like an answer *)

(** X7: from standard output and the exit status alone a reported failure
    cannot be told from an answer.  On one stream, an execution whose
    result has the text ["Error running CodeAgent: "] followed by [t] and
    an execution that reports a failure of the construction, of the run
    invocation or of [str(result)] for which [format(e, "")] returns [t]
    print the same text, put the same characters on standard output and
    exit with the same status. *)
Theorem failure_looks_like_answer `{ObjectModel} (out : Stream)
    (answers fails : Library) (a : Agent) (r : Value) (e : exn) (t : string) :
  import_CodeAgent answers = Returns tt ->
  construction answers = Returns a ->
  invocation answers a = Returns r ->
  str_value r = Returns ("Error running CodeAgent: " ++ t)%string ->
  import_CodeAgent fails = Returns tt ->
  raised_in_try out fails e [] ->
  is_Exception e = true ->
  format_exn e = Returns t ->
  write out [] ("Error running CodeAgent: " ++ t)%string = Returns tt ->
  write out [("Error running CodeAgent: " ++ t)%string] newline = Returns tt ->
  printed_output out answers = printed_output out fails /\
  standard_output out answers = standard_output out fails /\
  exit_status_of out answers = exit_status_of out fails.
Proof.
  intros Hi Hc Hr Hs Hi' Hraised He Hf Hw Hn.
  assert (Hx : execution out answers =
    (mk_state
       [ImportFrom "smolagents" "CodeAgent";
        Construct {| positional := []; keywords := [("tools", ArgList [])] |};
        Run a {| positional := [ArgStr "What is the 15th prime number?"];
                 keywords := [] |};
        Print (error_line t)]
       [(error_line t, true); (newline, true)],
     Returns tt)).
  { destruct (execution_cases out answers)
      as [(e0 & Hi0 & _)
         | [(a0 & v0 & t0 & _ & Hc0 & Hr0 & Hs0 & _ & _ & Hx)
         | (e0 & h & sp & _ & Hraised0 & _)]].
    - congruence.
    - assert (a0 = a) by congruence. subst a0.
      assert (v0 = r) by congruence. subst v0.
      assert (t0 = error_line t) by (unfold error_line; congruence). subst t0.
      exact Hx.
    - destruct (failure_excludes_success out answers a r (error_line t) e0 h
                  Hc Hr Hs Hw Hn Hraised0). }
  assert (Hy : exists sp,
    printed sp = [] /\
    execution out fails =
      (mk_state (sp ++ [Caught e; Print (error_line t)])
                [(error_line t, true); (newline, true)],
       Returns tt)).
  { destruct (execution_cases out fails)
      as [(e0 & Hi0 & _)
         | [(a0 & v0 & t0 & _ & Hc0 & Hr0 & Hs0 & Hw0 & Hn0 & _)
         | (e0 & h & sp & _ & Hraised0 & Hp & _ & Hcase)]].
    - congruence.
    - destruct (failure_excludes_success out fails a0 v0 t0 e [] Hc0 Hr0 Hs0 Hw0 Hn0
                  Hraised).
    - destruct (raised_in_try_unique out fails e0 e h [] Hraised0 Hraised) as [-> ->].
      destruct Hcase
        as [[He' _] | [[_ (t0 & Hf0 & _ & _ & Hy)] | [_ (e' & w' & Hfail & _)]]].
      + congruence.
      + assert (t0 = t) by congruence. subst t0. exists sp. auto.
      + destruct Hfail; unfold error_line in *; rewrite ?app_nil_l in *; congruence. }
  destruct Hy as [sp [Hp Hy]].
  unfold exit_status_of, chunks_handed, printed_output, standard_output,
    termination_of, trace.
  rewrite Hx, Hy. cbn [fst snd steps written]. rewrite printed_app, Hp.
  repeat split.
Qed.

Lemma failure_looks_like_answer_witness :
  printed_output accepting answering_like_a_failure =
    printed_output accepting failing_run /\
  standard_output accepting answering_like_a_failure =
    standard_output accepting failing_run /\
  exit_status_of accepting answering_like_a_failure =
    exit_status_of accepting failing_run.
Proof.
  apply (failure_looks_like_answer accepting answering_like_a_failure failing_run 7
           (Answer "Error running CodeAgent: no model configured")
           value_error "no model configured"); try reflexivity.
  apply (raised_by_run accepting failing_run 7); reflexivity.
Defined.

(** ** The handler is entered once, before anything is printed *)

(** X8: in every execution the handler is entered at most once, and when
    it is entered no print call has completed before: the print of an error
    line never follows a completed print of the result, and a failure is
    never reported twice. *)
Theorem handler_entered_once `{ObjectModel} (out : Stream) (lib : Library)
    (pre post : list event) (e : exn) :
  trace out lib = pre ++ Caught e :: post ->
  printed pre = [] /\
  (forall e', ~ In (Caught e') pre) /\
  (forall e', ~ In (Caught e') post).
Proof.
  intros Htr.
  pose proof (trace_in_order out lib) as Hord. unfold in_order in Hord.
  destruct (reach Start (trace out lib)) as [r|] eqn:Hreach; [clear Hord|discriminate].
  rewrite Htr in Hreach.
  destruct (reach_split _ _ _ _ _ Hreach) as (q & q' & Hpre & Hadv & Hpost).
  assert (Hq : (q = Constructed \/ q = Invoked) /\ q' = Handling).
  { destruct q; simpl in Hadv; try discriminate; injection Hadv as <-; auto. }
  destruct Hq as [Hq ->].
  destruct (reach_before_outcome pre Start q Hpre Hq) as [Hp Hno].
  destruct (reach_after_outcome post Handling r (or_introl eq_refl) Hpost) as [_ Hno'].
  auto.
Qed.

Lemma handler_entered_once_witness :
  printed [ImportFrom "smolagents" "CodeAgent";
           Construct {| positional := []; keywords := [("tools", ArgList [])] |};
           Run 7 {| positional := [ArgStr "What is the 15th prime number?"];
                    keywords := [] |}] = [] /\
  (forall e', ~ In (Caught e')
      [ImportFrom "smolagents" "CodeAgent";
       Construct {| positional := []; keywords := [("tools", ArgList [])] |};
       Run 7 {| positional := [ArgStr "What is the 15th prime number?"];
                keywords := [] |}]) /\
  (forall e', ~ In (Caught e')
      [Print "Error running CodeAgent: no model configured"]).
Proof.
  apply (handler_entered_once accepting failing_run _ _ value_error). reflexivity.
Defined.

(** ** Where a printed text comes from *)

(** X9: the script prints nothing of its own making: in every execution a
    printed text is either the text of the value the run invocation
    returned, or the error line for an [Exception] raised inside the [try]
    (by the construction, the run invocation or [print(result)]), built
    from what [format(e, "")] returns. *)
Theorem printed_text_provenance `{ObjectModel} (out : Stream) (lib : Library)
    (s : string) :
  In s (printed_output out lib) ->
  (exists a r,
      construction lib = Returns a /\ invocation lib a = Returns r /\
      str_value r = Returns s) \/
  (exists e h t,
      raised_in_try out lib e h /\ is_Exception e = true /\
      format_exn e = Returns t /\
      s = ("Error running CodeAgent: " ++ t)%string).
Proof.
  unfold printed_output, trace.
  destruct (execution_cases out lib)
    as [(e & _ & Hx)
       | [(a & v & t & _ & Hc & Hr & Hs & _ & _ & Hx)
       | (e & h & sp & _ & Hraised & Hp & _ &
          [[_ Hx] | [[He (t & Hf & _ & _ & Hx)] | [_ (e' & w' & _ & Hx)]]])]];
    rewrite Hx; cbn [fst steps]; rewrite ?printed_app, ?Hp; simpl.
  - intros [].
  - intros [<-|[]]. left. exists a, v. auto.
  - intros [].
  - intros [<-|[]]. right. exists e, h, t. auto.
  - intros [].
Qed.

Lemma printed_text_provenance_witness :
  (exists a r,
      construction failing_formatted = Returns a /\
      invocation failing_formatted a = Returns r /\
      str_value r = Returns "Error running CodeAgent: F") \/
  (exists e h t,
      raised_in_try accepting failing_formatted e h /\ is_Exception e = true /\
      format_exn e = Returns t /\
      "Error running CodeAgent: F" = ("Error running CodeAgent: " ++ t)%string).
Proof.
  apply (printed_text_provenance accepting failing_formatted
           "Error running CodeAgent: F").
  left. reflexivity.
Defined.
